(** * A shallow embedding of [Solution.ts]: the library manager

    The TypeScript program keeps, inside one [LibraryManager] object, an
    array of books, an array of loans, an injected e-mail service and an
    array of observers.  Every method is embedded as a computation in a
    small monad that threads the manager's fields, reads the clock (for
    [new Date()]), collects what the method prints on the console together
    with the calls it makes on its collaborators, and may throw.

    JavaScript arrays are lists; the array methods the program uses
    ([push], [some], [find], [findIndex], [indexOf], [filter], [splice],
    [forEach]) are written out with the behaviour the language gives them,
    [-1] for "not found" included.  Strings are [string]; a template
    literal is the concatenation of its parts. *)

From Stdlib Require Import String Ascii List ZArith Bool Lia DecimalString.
Import ListNotations.

Local Open Scope string_scope.
Local Open Scope list_scope.

(** ** JavaScript strings *)

Module JsString.

(** [startsWith s q]: the characters of [q] are the first characters of
    [s]. *)
Fixpoint startsWith (s q : string) : bool :=
  match q, s with
  | EmptyString, _ => true
  | String _ _, EmptyString => false
  | String c q', String d s' => Ascii.eqb c d && startsWith s' q'
  end.

(** [s.includes(q)]: [q] occurs in [s] at some position, scanning from
    position 0. *)
Fixpoint includes (s q : string) : bool :=
  startsWith s q ||
  match s with
  | EmptyString => false
  | String _ s' => includes s' q
  end.

(** A template literal [`a${x}b${y}c`] is the concatenation of its
    pieces. *)
Definition template (parts : list string) : string :=
  String.concat EmptyString parts.

(** [`${n}`] for a non-negative integer. *)
Definition ofNat (n : nat) : string :=
  NilZero.string_of_uint (Nat.to_uint n).

(** The double-quote character, as a one-character string. *)
Definition dquote : string := String "034"%char EmptyString.

End JsString.

(** ** JavaScript arrays *)

Module JsArray.
Section Methods.
Context {A : Type}.

(** [l.push(x)] *)
Definition push (l : list A) (x : A) : list A := l ++ [x].

(** [l.some(p)] *)
Definition some (p : A -> bool) (l : list A) : bool := existsb p l.

(** [l.find(p)]: the first element satisfying [p], [undefined] ([None])
    when there is none. *)
Definition find (p : A -> bool) (l : list A) : option A := List.find p l.

(** [l.filter(p)]: a new array. *)
Definition filter (p : A -> bool) (l : list A) : list A := List.filter p l.

(** [l.findIndex(p)]: the index of the first element satisfying [p],
    [-1] when there is none. *)
Fixpoint findIndex (p : A -> bool) (l : list A) : Z :=
  match l with
  | [] => (-1)%Z
  | x :: r =>
      if p x then 0%Z
      else let i := findIndex p r in
           if (i =? -1)%Z then (-1)%Z else (i + 1)%Z
  end.

(** [l.indexOf(x)], for a strict equality [same]. *)
Definition indexOf (same : A -> A -> bool) (l : list A) (x : A) : Z :=
  findIndex (fun y => same y x) l.

(** [l.splice(start, deleteCount)]: the removed elements and what is
    left of the array.  A negative [start] counts from the end; both
    arguments are clamped to the array. *)
Definition splice (l : list A) (start deleteCount : Z) : list A * list A :=
  let len := Z.of_nat (length l) in
  let k := if (start <? 0)%Z then Z.max (len + start) 0 else Z.min start len in
  let d := Z.min (Z.max deleteCount 0) (len - k) in
  (firstn (Z.to_nat d) (skipn (Z.to_nat k) l),
   firstn (Z.to_nat k) l ++ skipn (Z.to_nat (k + d)) l).

End Methods.
End JsArray.

(** ** The data model *)

(** A [Date] is its time value, milliseconds since the epoch. *)
Definition Date : Type := Z.

(** How a [Date] prints inside a template literal depends on the host's
    time zone and locale: the rendering is an interface of the runtime. *)
Class JsRuntime : Type := { Date_toString : Date -> string }.

Module Book.
Record t : Type := mk { title : string; author : string; ISBN : string }.
End Book.

Module Loan.
Record t : Type := mk { ISBN : string; userID : string; date : Date }.
End Loan.

(** Console output has three levels: [console.log], [console.warn] and
    [console.error]. *)
Inductive Level : Type := Log | Warn | Error.

Module User.
(** A [User] is an object: [ref] is its identity, the thing [===]
    compares. *)
Record t : Type := mk { ref : nat; name : string }.

Definition same (u v : t) : bool := Nat.eqb (ref u) (ref v).
End User.

(** What a method does to the outside: a line on the console, a call of
    [update] on an observer, a call of [sendEmail] on the injected
    service. *)
Inductive Event : Type :=
| Console (lvl : Level) (msg : string)
| Invoke_update (observer : User.t) (bookTitle : string)
| Invoke_sendEmail (userID message : string).

(** [User.update] *)
Definition User_update (this : User.t) (bookTitle : string) : list Event :=
  [Console Log (JsString.template
     [User.name this; " ha sido notificado sobre el nuevo libro: "; bookTitle])].

(** [interface IEmailService] *)
Class IEmailService (S : Type) : Type :=
  { sendEmail : S -> string -> string -> list Event }.

(** [class ConsoleEmailService implements IEmailService] *)
Inductive ConsoleEmailService : Type := new_ConsoleEmailService.

#[export] Instance ConsoleEmailService_sendEmail : IEmailService ConsoleEmailService :=
  {| sendEmail := fun _ userID message =>
       [Console Log (JsString.template
          ["[INFO] Enviando email a "; userID; ": "; message])] |}.

(** What the trace of a method would show had it called [sendEmail] on the
    service it was given. *)
Definition call_sendEmail {S : Type} `{IEmailService S}
    (svc : S) (userID message : string) : list Event :=
  Invoke_sendEmail userID message :: sendEmail svc userID message.

Inductive JsError : Type := TypeError (msg : string).


(** ** [class LibraryManager] *)

Module LibraryManager.
Section WithService.
Context {S : Type} {rt : JsRuntime}.

(** The fields of the object.  [emailService] holds whatever the
    constructor was given. *)
Record t : Type := mk {
  books : list Book.t;
  loans : list Loan.t;
  emailService : S;
  observers : list User.t
}.

(** [new LibraryManager(emailService)] *)
Definition new (emailService : S) : t :=
  {| books := []; loans := []; emailService := emailService; observers := [] |}.

(** *** The monad of methods

    A method runs at some instant [now] on the object [this]; it returns a
    value or throws, leaves the object in a [final] state and a [trace] of
    events behind. *)
Record Outcome (A : Type) : Type := mkOutcome {
  value : A + JsError;
  final : t;
  trace : list Event
}.
Arguments mkOutcome {A} _ _ _.
Arguments value {A} _.
Arguments final {A} _.
Arguments trace {A} _.

Definition M (A : Type) : Type := Date -> t -> Outcome A.

Definition ret {A : Type} (a : A) : M A :=
  fun _ this => mkOutcome (inl a) this [].

Definition bind {A B : Type} (m : M A) (f : A -> M B) : M B :=
  fun now this =>
    let o := m now this in
    match value o with
    | inl a =>
        let o' := f a now (final o) in
        mkOutcome (value o') (final o') (trace o ++ trace o')
    | inr e => mkOutcome (inr e) (final o) (trace o)
    end.

Definition throw {A : Type} (e : JsError) : M A :=
  fun _ this => mkOutcome (inr e) this [].

Definition emit (evs : list Event) : M unit :=
  fun _ this => mkOutcome (inl tt) this evs.

(** [new Date()] *)
Definition new_Date : M Date :=
  fun now this => mkOutcome (inl now) this [].

(** Reading and assigning the fields of [this]. *)
Definition get {A : Type} (field : t -> A) : M A :=
  fun _ this => mkOutcome (inl (field this)) this [].

Definition set_books (l : list Book.t) : M unit :=
  fun _ this =>
    mkOutcome (inl tt)
      {| books := l; loans := loans this;
         emailService := emailService this; observers := observers this |} [].

Definition set_loans (l : list Loan.t) : M unit :=
  fun _ this =>
    mkOutcome (inl tt)
      {| books := books this; loans := l;
         emailService := emailService this; observers := observers this |} [].

Definition set_observers (l : list User.t) : M unit :=
  fun _ this =>
    mkOutcome (inl tt)
      {| books := books this; loans := loans this;
         emailService := emailService this; observers := l |} [].

Definition console_log (msg : string) : M unit := emit [Console Log msg].
Definition console_warn (msg : string) : M unit := emit [Console Warn msg].
Definition console_error (msg : string) : M unit := emit [Console Error msg].

(** [l.forEach(f)] *)
Fixpoint forEach {A : Type} (f : A -> M unit) (l : list A) : M unit :=
  match l with
  | [] => ret tt
  | x :: r => bind (f x) (fun _ => forEach f r)
  end.

(** [a[0]] followed by a property access: a [TypeError] when the array is
    empty, since [undefined] has no properties. *)
Definition first_of {A : Type} (removed : list A) : M A :=
  match removed with
  | x :: _ => ret x
  | [] => throw (TypeError "Cannot read properties of undefined")
  end.

Notation "x <- c ;; k" := (bind c (fun x => k))
  (at level 61, c at next level, right associativity).
Notation "c ;;; k" := (bind c (fun _ => k))
  (at level 61, right associativity).

(** *** The methods *)

(** [addObserver], lines 103-105. *)
Definition addObserver (user : User.t) : M unit :=
  obs <- get observers ;;
  set_observers (JsArray.push obs user).

(** [removeObserver], lines 107-112. *)
Definition removeObserver (user : User.t) : M unit :=
  obs <- get observers ;;
  let index := JsArray.indexOf User.same obs user in
  if negb (index =? -1)%Z then
    set_observers (snd (JsArray.splice obs index 1))
  else ret tt.

(** [notifyObservers], lines 113-117: each round calls [update] on an
    observer, which prints. *)
Definition notifyObservers (bookTitle : string) : M unit :=
  obs <- get observers ;;
  forEach (fun observer =>
             emit (Invoke_update observer bookTitle
                   :: User_update observer bookTitle)) obs.

(** [addBook], lines 120-130. *)
Definition addBook (title author ISBN : string) : M unit :=
  bs <- get books ;;
  if JsArray.some (fun book => String.eqb (Book.ISBN book) ISBN) bs then
    console_error (JsString.template
      ["[ERROR] El libro con ISBN "; ISBN; " ya existe en la biblioteca."])
  else
    let book := Book.mk title author ISBN in
    set_books (JsArray.push bs book) ;;;
    console_log (JsString.template
      ["[INFO] Libro agregado: "; title; " (ISBN: "; ISBN; ")"]).

(** [removeBook], lines 132-140.  [splice] changes the array before the
    removed record is read. *)
Definition removeBook (ISBN : string) : M unit :=
  bs <- get books ;;
  let index := JsArray.findIndex (fun b => String.eqb (Book.ISBN b) ISBN) bs in
  if negb (index =? -1)%Z then
    let '(removed, rest) := JsArray.splice bs index 1 in
    set_books rest ;;;
    removedBook <- first_of removed ;;
    console_log (JsString.template
      ["[INFO] Libro eliminado: "; Book.title removedBook; " (ISBN: "; ISBN; ")"])
  else
    console_warn (JsString.template
      ["[WARNING] Intento de eliminar un libro inexistente con ISBN: "; ISBN]).

(** [searchByTitle], [searchByAuthor], [searchByISBN], lines 142-152. *)
Definition searchByTitle (title : string) : M (list Book.t) :=
  bs <- get books ;;
  ret (JsArray.filter (fun book => JsString.includes (Book.title book) title) bs).

Definition searchByAuthor (author : string) : M (list Book.t) :=
  bs <- get books ;;
  ret (JsArray.filter (fun book => JsString.includes (Book.author book) author) bs).

Definition searchByISBN (ISBN : string) : M (option Book.t) :=
  bs <- get books ;;
  ret (JsArray.find (fun book => String.eqb (Book.ISBN book) ISBN) bs).

(** [search], lines 154-168. *)
Definition search (query : string) : M (list Book.t) :=
  bs <- get books ;;
  let results :=
    JsArray.filter (fun book =>
      JsString.includes (Book.title book) query
      || JsString.includes (Book.author book) query
      || String.eqb (Book.ISBN book) query) bs in
  (if (0 <? length results)%nat then
     console_log (JsString.template
       ["[INFO] Búsqueda exitosa para "; JsString.dquote; query; JsString.dquote;
        ". Resultados encontrados: "; JsString.ofNat (length results)])
   else
     console_log (JsString.template
       ["[INFO] Búsqueda para "; JsString.dquote; query; JsString.dquote;
        " no produjo resultados."])) ;;;
  ret results.

(** [private sendEmail], lines 198-200: the manager's own method, which
    prints; it does not read the [emailService] field. *)
Definition sendEmail (userID message : string) : M unit :=
  console_log (JsString.template ["Enviando email a "; userID; ": "; message]).

(** [loanBook], lines 170-180. *)
Definition loanBook (ISBN userID : string) : M unit :=
  bs <- get books ;;
  match JsArray.find (fun b => String.eqb (Book.ISBN b) ISBN) bs with
  | Some book =>
      date <- new_Date ;;
      let loan := Loan.mk ISBN userID date in
      ls <- get loans ;;
      set_loans (JsArray.push ls loan) ;;;
      console_log (JsString.template
        ["[INFO] Préstamo registrado: "; Book.title book; " a "; userID]) ;;;
      sendEmail userID (JsString.template
        ["Has solicitado el libro "; Book.title book])
  | None =>
      console_warn (JsString.template
        ["[WARNING] Intento de préstamo de un libro inexistente con ISBN: "; ISBN])
  end.

(** [returnBook], lines 182-196. *)
Definition returnBook (ISBN userID : string) : M unit :=
  ls <- get loans ;;
  let index :=
    JsArray.findIndex (fun loan =>
      String.eqb (Loan.ISBN loan) ISBN && String.eqb (Loan.userID loan) userID) ls in
  if negb (index =? -1)%Z then
    let '(removed, rest) := JsArray.splice ls index 1 in
    set_loans rest ;;;
    removedLoan <- first_of removed ;;
    console_log (JsString.template
      ["[INFO] Devolución registrada: "; Date_toString (Loan.date removedLoan);
       ": Usuario "; userID; ", Libro ISBN "; ISBN]) ;;;
    bs <- get books ;;
    match JsArray.find (fun b => String.eqb (Book.ISBN b) ISBN) bs with
    | Some _ =>
        sendEmail userID (JsString.template
          ["Has devuelto el libro con ISBN "; ISBN; ". ¡Gracias!"])
    | None =>
        console_error (JsString.template
          ["[ERROR] El libro con ISBN "; ISBN; " no se encontró en la biblioteca."])
    end
  else
    console_warn (JsString.template
      ["[WARNING] Intento de devolución de un libro no prestado: ISBN "; ISBN;
       ", Usuario "; userID]).

(** [printAllBooks] and [printAllLoans], lines 202-212. *)
Definition printAllBooks : M unit :=
  bs <- get books ;;
  forEach (fun book =>
    console_log (JsString.template
      ["Título: "; Book.title book; ", Autor: "; Book.author book;
       ", ISBN: "; Book.ISBN book])) bs.

Definition printAllLoans : M unit :=
  ls <- get loans ;;
  forEach (fun loan =>
    console_log (JsString.template
      ["ISBN: "; Loan.ISBN loan; ", Usuario: "; Loan.userID loan;
       ", Fecha: "; Date_toString (Loan.date loan)])) ls.

End WithService.

Arguments t S : clear implicits.
Arguments Outcome S A : clear implicits.
Arguments M S A : clear implicits.
Arguments mkOutcome {S A} _ _ _.
Arguments value {S A} _.
Arguments final {S A} _.
Arguments trace {S A} _.

End LibraryManager.

(** ** Sequences of calls *)

(** A call of one of the public methods of the manager. *)
Inductive Op : Type :=
| AddObserver (user : User.t)
| RemoveObserver (user : User.t)
| NotifyObservers (bookTitle : string)
| AddBook (title author ISBN : string)
| RemoveBook (ISBN : string)
| SearchByTitle (title : string)
| SearchByAuthor (author : string)
| SearchByISBN (ISBN : string)
| Search (query : string)
| LoanBook (ISBN userID : string)
| ReturnBook (ISBN userID : string)
| PrintAllBooks
| PrintAllLoans.

Section Runs.
Context {S : Type} {rt : JsRuntime}.

Definition discard {A : Type} (m : LibraryManager.M S A) : LibraryManager.M S unit :=
  LibraryManager.bind m (fun _ => LibraryManager.ret tt).

(** The method an [Op] calls, its result dropped. *)
Definition perform (op : Op) : LibraryManager.M S unit :=
  match op with
  | AddObserver u => LibraryManager.addObserver u
  | RemoveObserver u => LibraryManager.removeObserver u
  | NotifyObservers t => LibraryManager.notifyObservers t
  | AddBook t a i => LibraryManager.addBook t a i
  | RemoveBook i => LibraryManager.removeBook i
  | SearchByTitle q => discard (LibraryManager.searchByTitle q)
  | SearchByAuthor q => discard (LibraryManager.searchByAuthor q)
  | SearchByISBN i => discard (LibraryManager.searchByISBN i)
  | Search q => discard (LibraryManager.search q)
  | LoanBook i u => LibraryManager.loanBook i u
  | ReturnBook i u => LibraryManager.returnBook i u
  | PrintAllBooks => LibraryManager.printAllBooks
  | PrintAllLoans => LibraryManager.printAllLoans
  end.

(** The object after a sequence of calls, each made at its own instant.
    A call that throws leaves the object as it was when it threw. *)
Fixpoint run (calls : list (Date * Op)) (this : LibraryManager.t S)
  : LibraryManager.t S :=
  match calls with
  | [] => this
  | (now, op) :: rest => run rest (LibraryManager.final (perform op now this))
  end.

(** The console lines and collaborator calls of a sequence of calls. *)
Fixpoint run_trace (calls : list (Date * Op)) (this : LibraryManager.t S)
  : list Event :=
  match calls with
  | [] => []
  | (now, op) :: rest =>
      let o := perform op now this in
      LibraryManager.trace o ++ run_trace rest (LibraryManager.final o)
  end.

End Runs.

(** ** Predicates of the specification *)

(** The book carries the given isbn. *)
Definition has_isbn (ISBN : string) (b : Book.t) : bool :=
  String.eqb (Book.ISBN b) ISBN.

(** The loan is the one of this isbn to this user. *)
Definition loan_of (ISBN userID : string) (l : Loan.t) : bool :=
  String.eqb (Loan.ISBN l) ISBN && String.eqb (Loan.userID l) userID.

(** The number of books of the collection that carry the isbn. *)
Definition count_isbn (ISBN : string) (bs : list Book.t) : nat :=
  length (List.filter (has_isbn ISBN) bs).

(** At most one record for each isbn. *)
Definition unique_isbn (bs : list Book.t) : Prop :=
  forall ISBN, (count_isbn ISBN bs <= 1)%nat.

(** The query matches the book the way [search] looks for it. *)
Definition matches_query (query : string) (b : Book.t) : bool :=
  JsString.includes (Book.title b) query
  || JsString.includes (Book.author b) query
  || String.eqb (Book.ISBN b) query.

(** The event is a call of [update] on an observer. *)
Definition is_update (e : Event) : bool :=
  match e with Invoke_update _ _ => true | _ => false end.

(** The event is a call of [sendEmail] on the injected service. *)
Definition is_service_call (e : Event) : bool :=
  match e with Invoke_sendEmail _ _ => true | _ => false end.

(** The calls of [update] the listeners receive in a trace, in order. *)
Definition updates_of (tr : list Event) : list (User.t * string) :=
  flat_map (fun e => match e with
                     | Invoke_update u t => [(u, t)]
                     | _ => []
                     end) tr.

(** The line [returnBook] prints once the loan is taken out. *)
Definition return_registered {rt : JsRuntime} (x : Loan.t) (ISBN userID : string) : Event :=
  Console Log (JsString.template
    ["[INFO] Devolución registrada: "; Date_toString (Loan.date x);
     ": Usuario "; userID; ", Libro ISBN "; ISBN]).

(** ** A sample world for running the program *)

Module Sample.

(** A runtime that prints a date as its time value. *)
Definition runtime : JsRuntime :=
  {| Date_toString := fun d => JsString.ofNat (Z.to_nat d) |}.

Definition gatsby : Book.t :=
  Book.mk "El Gran Gatsby" "F. Scott Fitzgerald" "123456789".

Definition ana : User.t := User.mk 1 "Ana".

(** The manager of the demonstration at the end of the program. *)
Definition libraryex : LibraryManager.t ConsoleEmailService :=
  LibraryManager.new new_ConsoleEmailService.

(** The catalog once "El Gran Gatsby" is in. *)
Definition shelf : LibraryManager.t ConsoleEmailService :=
  {| LibraryManager.books := [gatsby]; LibraryManager.loans := [];
     LibraryManager.emailService := new_ConsoleEmailService;
     LibraryManager.observers := [] |}.

Definition loan1 : Loan.t := Loan.mk "123456789" "user01" 4%Z.

(** The same catalog with the book lent to user01. *)
Definition lent : LibraryManager.t ConsoleEmailService :=
  {| LibraryManager.books := [gatsby]; LibraryManager.loans := [loan1];
     LibraryManager.emailService := new_ConsoleEmailService;
     LibraryManager.observers := [] |}.

(** The loan outstanding, the book gone from the catalog. *)
Definition dangling : LibraryManager.t ConsoleEmailService :=
  {| LibraryManager.books := []; LibraryManager.loans := [loan1];
     LibraryManager.emailService := new_ConsoleEmailService;
     LibraryManager.observers := [] |}.

(** The calls of the demonstration, at instants 1 to 7. *)
Definition demo : list (Date * Op) :=
  [ (1%Z, AddBook "El Gran Gatsby" "F. Scott Fitzgerald" "123456789");
    (2%Z, AddBook "1984" "George Orwell" "123456789");
    (3%Z, ReturnBook "987654321" "user01");
    (4%Z, LoanBook "123456789" "user01");
    (5%Z, ReturnBook "123456789" "user01");
    (6%Z, ReturnBook "123456789" "user01");
    (7%Z, ReturnBook "987654321" "user01") ].

End Sample.

(** ** [class BookBuilder] *)

(** The builder is one object that every [withX] call changes and hands
    back ([return this]); a chain of calls is the composition of the
    changes. *)
Module BookBuilder.

Record t : Type := mk { title : string; author : string; ISBN : string }.

(** [new BookBuilder()]: the three fields start as the empty string. *)
Definition new : t := mk EmptyString EmptyString EmptyString.

(** [withTitle], lines 66-69. *)
Definition withTitle (title : string) (this : t) : t :=
  mk title (author this) (ISBN this).

(** [withAuthor], lines 71-74. *)
Definition withAuthor (author : string) (this : t) : t :=
  mk (title this) author (ISBN this).

(** [withISBN], lines 76-79. *)
Definition withISBN (ISBN : string) (this : t) : t :=
  mk (title this) (author this) ISBN.

(** [build], lines 81-83. *)
Definition build (this : t) : Book.t :=
  Book.mk (title this) (author this) (ISBN this).

(** One call of a setter. *)
Inductive Setter : Type :=
| WithTitle (title : string)
| WithAuthor (author : string)
| WithISBN (ISBN : string).

Definition apply (c : Setter) (this : t) : t :=
  match c with
  | WithTitle x => withTitle x this
  | WithAuthor x => withAuthor x this
  | WithISBN x => withISBN x this
  end.

(** A chain [b.c1(..).c2(..)...], first call first. *)
Definition chain (cs : list Setter) (this : t) : t :=
  fold_left (fun b c => apply c b) cs this.

(** The argument of the last [withTitle] of a chain, if there is one;
    likewise for the other two setters. *)
Fixpoint last_title (cs : list Setter) : option string :=
  match cs with
  | [] => None
  | c :: r =>
      match last_title r with
      | Some x => Some x
      | None => match c with WithTitle x => Some x | _ => None end
      end
  end.

Fixpoint last_author (cs : list Setter) : option string :=
  match cs with
  | [] => None
  | c :: r =>
      match last_author r with
      | Some x => Some x
      | None => match c with WithAuthor x => Some x | _ => None end
      end
  end.

Fixpoint last_ISBN (cs : list Setter) : option string :=
  match cs with
  | [] => None
  | c :: r =>
      match last_ISBN r with
      | Some x => Some x
      | None => match c with WithISBN x => Some x | _ => None end
      end
  end.

End BookBuilder.

(** ** The singleton *)

Section Singleton.
Context {S : Type} {rt : JsRuntime}.

(** [private static instance]: [None] is [undefined], the value before the
    first call of [getInstance].  The references [getInstance] hands out
    all denote the object held here. *)
Definition Static : Type := option (LibraryManager.t S).

(** [getInstance], lines 97-102: the static after the call; the reference
    returned denotes the object it holds. *)
Definition getInstance (emailService : S) (instance : Static) : Static :=
  match instance with
  | None => Some (LibraryManager.new emailService)
  | Some this => Some this
  end.

(** What a client of the singleton does: it asks for the instance, or it
    calls a method on the instance it was handed. *)
Inductive Step : Type :=
| GetInstance (emailService : S)
| Call (now : Date) (op : Op).

Definition step (st : Step) (instance : Static) : Static :=
  match st with
  | GetInstance emailService => getInstance emailService instance
  | Call now op =>
      match instance with
      | Some this => Some (LibraryManager.final (perform op now this))
      | None => None
      end
  end.

Definition steps (l : list Step) (instance : Static) : Static :=
  fold_left (fun i st => step st i) l instance.

(** The method calls of a client, in order. *)
Definition calls_of (l : list Step) : list (Date * Op) :=
  flat_map (fun st => match st with
                      | GetInstance _ => []
                      | Call now op => [(now, op)]
                      end) l.

End Singleton.

(** ** Which fields a call may change, and what it may print *)

Definition touches_books (op : Op) : bool :=
  match op with AddBook _ _ _ | RemoveBook _ => true | _ => false end.

Definition touches_loans (op : Op) : bool :=
  match op with LoanBook _ _ | ReturnBook _ _ => true | _ => false end.

Definition touches_observers (op : Op) : bool :=
  match op with AddObserver _ | RemoveObserver _ => true | _ => false end.

Definition Level_eqb (a b : Level) : bool :=
  match a, b with
  | Log, Log | Warn, Warn | Error, Error => true
  | _, _ => false
  end.

(** The trace holds a console line of the given level. *)
Definition has_level (lvl : Level) (tr : list Event) : bool :=
  existsb (fun e => match e with
                    | Console l _ => Level_eqb l lvl
                    | _ => false
                    end) tr.

(** The states in which a call prints at the error level, and those in
    which it prints a warning. *)
Definition error_case {S : Type} (op : Op) (this : LibraryManager.t S) : bool :=
  match op with
  | AddBook _ _ ISBN => existsb (has_isbn ISBN) (LibraryManager.books this)
  | ReturnBook ISBN userID =>
      existsb (loan_of ISBN userID) (LibraryManager.loans this)
      && negb (existsb (has_isbn ISBN) (LibraryManager.books this))
  | _ => false
  end.

Definition warning_case {S : Type} (op : Op) (this : LibraryManager.t S) : bool :=
  match op with
  | RemoveBook ISBN => negb (existsb (has_isbn ISBN) (LibraryManager.books this))
  | LoanBook ISBN _ => negb (existsb (has_isbn ISBN) (LibraryManager.books this))
  | ReturnBook ISBN userID =>
      negb (existsb (loan_of ISBN userID) (LibraryManager.loans this))
  | _ => false
  end.

(** The lines [printAllBooks] and [printAllLoans] print for one record. *)
Definition book_line (book : Book.t) : Event :=
  Console Log (JsString.template
    ["Título: "; Book.title book; ", Autor: "; Book.author book;
     ", ISBN: "; Book.ISBN book]).

Definition loan_line {rt : JsRuntime} (loan : Loan.t) : Event :=
  Console Log (JsString.template
    ["ISBN: "; Loan.ISBN loan; ", Usuario: "; Loan.userID loan;
     ", Fecha: "; Date_toString (Loan.date loan)]).

(** ** More sample states *)

Module Scenario.

Definition bea : User.t := User.mk 2 "Bea".

(** Ana registered twice, Bea in between. *)
Definition crowd : LibraryManager.t ConsoleEmailService :=
  {| LibraryManager.books := [Sample.gatsby]; LibraryManager.loans := [];
     LibraryManager.emailService := new_ConsoleEmailService;
     LibraryManager.observers := [Sample.ana; bea; Sample.ana] |}.

Definition orwell : Book.t := Book.mk "1984" "George Orwell" "42".

End Scenario.

(** ** Facts about the array methods *)

Section ArrayFacts.
Context {A : Type}.
Implicit Types (p : A -> bool) (l : list A).

Lemma findIndex_lower p l : (-1 <= JsArray.findIndex p l)%Z.
Proof.
  induction l as [|x r IH]; simpl; [lia|].
  destruct (p x); [lia|].
  destruct (Z.eqb_spec (JsArray.findIndex p r) (-1)); lia.
Qed.

(** [findIndex] answers [-1] exactly when no element passes the test. *)
Lemma findIndex_absent p l :
  JsArray.findIndex p l = (-1)%Z <-> (forall x, In x l -> p x = false).
Proof.
  induction l as [|x r IH]; simpl.
  - split; [intros _ y []|reflexivity].
  - destruct (p x) eqn:Hx.
    + split; [lia|]. intros H. specialize (H x (or_introl eq_refl)). congruence.
    + pose proof (findIndex_lower p r) as Hlow.
      destruct (Z.eqb_spec (JsArray.findIndex p r) (-1)) as [E|E].
      * split; [|reflexivity]. intros _ y [<-|Hy]; [assumption|].
        now apply IH.
      * split; [lia|]. intros H. exfalso. apply E, IH.
        intros y Hy. apply H. now right.
Qed.

(** When the first element passing the test sits after [l1], [findIndex]
    answers the length of [l1]. *)
Lemma findIndex_first p l1 x l2 :
  (forall y, In y l1 -> p y = false) -> p x = true ->
  JsArray.findIndex p (l1 ++ x :: l2) = Z.of_nat (length l1).
Proof.
  intros Hl1 Hx. induction l1 as [|y r IH]; simpl.
  - now rewrite Hx.
  - rewrite (Hl1 y (or_introl eq_refl)).
    rewrite IH by (intros z Hz; apply Hl1; now right).
    destruct (Z.eqb_spec (Z.of_nat (length r)) (-1)); lia.
Qed.

(** An array with an element passing the test splits around the first
    such element. *)
Lemma first_split p l :
  (exists x, In x l /\ p x = true) ->
  exists l1 x l2,
    l = l1 ++ x :: l2 /\ (forall y, In y l1 -> p y = false) /\ p x = true.
Proof.
  induction l as [|y r IH]; intros [x [Hin Hx]]; [destruct Hin|].
  destruct (p y) eqn:Hy.
  - exists [], y, r. repeat split; [intros z []|assumption].
  - destruct Hin as [->|Hin]; [congruence|].
    destruct IH as (l1 & z & l2 & -> & Hl1 & Hz); [now exists x|].
    exists (y :: l1), z, l2. repeat split; [|assumption].
    intros w [<-|Hw]; [assumption|now apply Hl1].
Qed.

(** [splice(i, 1)] at the position after [l1] takes out exactly the
    element found there. *)
Lemma splice_one l1 x l2 :
  JsArray.splice (l1 ++ x :: l2) (Z.of_nat (length l1)) 1 = ([x], l1 ++ l2).
Proof.
  unfold JsArray.splice.
  rewrite length_app; simpl length.
  destruct (Z.ltb_spec (Z.of_nat (length l1)) 0) as [H|_]; [lia|].
  replace (Z.min (Z.of_nat (length l1)) (Z.of_nat (length l1 + Datatypes.S (length l2))))
    with (Z.of_nat (length l1)) by lia.
  replace (Z.min (Z.max 1 0)
             (Z.of_nat (length l1 + Datatypes.S (length l2)) - Z.of_nat (length l1)))
    with 1%Z by lia.
  replace (Z.to_nat (Z.of_nat (length l1) + 1)) with (Datatypes.S (length l1)) by lia.
  rewrite Nat2Z.id. change (Z.to_nat 1) with 1%nat.
  assert (E1 : skipn (length l1) (l1 ++ x :: l2) = x :: l2).
  { rewrite skipn_app, Nat.sub_diag, skipn_all. reflexivity. }
  assert (E2 : firstn (length l1) (l1 ++ x :: l2) = l1).
  { rewrite firstn_app, Nat.sub_diag, firstn_all. simpl. apply app_nil_r. }
  assert (E3 : skipn (Datatypes.S (length l1)) (l1 ++ x :: l2) = l2).
  { rewrite skipn_app, (skipn_all2 l1) by lia.
    replace (Datatypes.S (length l1) - length l1)%nat with 1%nat by lia.
    reflexivity. }
  rewrite E1, E2, E3. reflexivity.
Qed.

(** [find] and [some] agree with [findIndex] on whether there is a
    match. *)
Lemma find_absent p l :
  JsArray.find p l = None <-> (forall x, In x l -> p x = false).
Proof.
  unfold JsArray.find. split.
  - intros H x Hx. exact (find_none p l H x Hx).
  - induction l as [|y r IH]; intros H; simpl; [reflexivity|].
    rewrite (H y (or_introl eq_refl)). apply IH. intros x Hx. apply H. now right.
Qed.

Lemma find_first p l1 x l2 :
  (forall y, In y l1 -> p y = false) -> p x = true ->
  JsArray.find p (l1 ++ x :: l2) = Some x.
Proof.
  intros Hl1 Hx. unfold JsArray.find.
  induction l1 as [|y r IH]; simpl.
  - now rewrite Hx.
  - rewrite (Hl1 y (or_introl eq_refl)). apply IH.
    intros z Hz. apply Hl1. now right.
Qed.

Lemma some_absent p l :
  JsArray.some p l = false <-> (forall x, In x l -> p x = false).
Proof.
  unfold JsArray.some. split.
  - intros H x Hx. destruct (p x) eqn:E; [|reflexivity].
    assert (existsb p l = true) by (apply existsb_exists; eauto). congruence.
  - intros H. destruct (existsb p l) eqn:E; [|reflexivity].
    apply existsb_exists in E as [x [Hx Hp]]. rewrite (H x Hx) in Hp. discriminate.
Qed.

Lemma filter_absent p l :
  (forall x, In x l -> p x = false) -> JsArray.filter p l = [].
Proof.
  unfold JsArray.filter. induction l as [|y r IH]; intros H; simpl; [reflexivity|].
  rewrite (H y (or_introl eq_refl)). apply IH. intros x Hx. apply H. now right.
Qed.

Lemma filter_all p l :
  (forall x, In x l -> p x = true) -> JsArray.filter p l = l.
Proof.
  unfold JsArray.filter. induction l as [|y r IH]; intros H; simpl; [reflexivity|].
  rewrite (H y (or_introl eq_refl)). f_equal. apply IH. intros x Hx. apply H. now right.
Qed.

End ArrayFacts.

(** The empty string occurs in every string. *)
Lemma includes_empty (s : string) : JsString.includes s EmptyString = true.
Proof. destruct s; reflexivity. Qed.

(** ** What each method does *)

Module LM := LibraryManager.

(** Unfolds the monad down to the outcome record. *)
Ltac run_method :=
  cbv beta delta
    [LM.bind LM.ret LM.get LM.emit LM.throw LM.new_Date LM.first_of
     LM.set_books LM.set_loans LM.set_observers
     LM.console_log LM.console_warn LM.console_error LM.sendEmail discard]
    iota;
  cbn [LM.value LM.final LM.trace LM.books LM.loans LM.observers
       LM.emailService app fst snd].

Section MethodFacts.
Context {S : Type} {rt : JsRuntime}.
Implicit Types (this : LM.t S) (now : Date).

(** A [forEach] whose body only prints or calls out leaves the object
    alone and gathers the events of its rounds. *)
Lemma forEach_emit {A : Type} (f : A -> list Event) (l : list A) this now :
  LM.forEach (fun x => LM.emit (f x)) l now this
  = LM.mkOutcome (inl tt) this (flat_map f l).
Proof.
  revert this. induction l as [|x r IH]; intros this; simpl.
  - reflexivity.
  - unfold LM.bind at 1. unfold LM.emit at 1. cbn [LM.value LM.final LM.trace].
    rewrite IH. reflexivity.
Qed.

Lemma addBook_duplicate this title author ISBN now :
  (exists b, In b (LM.books this) /\ has_isbn ISBN b = true) ->
  LM.addBook title author ISBN now this
  = LM.mkOutcome (inl tt) this
      [Console Error (JsString.template
         ["[ERROR] El libro con ISBN "; ISBN; " ya existe en la biblioteca."])].
Proof.
  intros [b [Hin Hb]]. unfold LM.addBook. run_method.
  assert (E : JsArray.some (fun book => String.eqb (Book.ISBN book) ISBN)
                (LM.books this) = true).
  { apply existsb_exists. exists b. split; assumption. }
  rewrite E. reflexivity.
Qed.

Lemma addBook_fresh this title author ISBN now :
  (forall b, In b (LM.books this) -> has_isbn ISBN b = false) ->
  LM.addBook title author ISBN now this
  = LM.mkOutcome (inl tt)
      {| LM.books := LM.books this ++ [Book.mk title author ISBN];
         LM.loans := LM.loans this;
         LM.emailService := LM.emailService this;
         LM.observers := LM.observers this |}
      [Console Log (JsString.template
         ["[INFO] Libro agregado: "; title; " (ISBN: "; ISBN; ")"])].
Proof.
  intros H. unfold LM.addBook. run_method.
  assert (E : JsArray.some (fun book => String.eqb (Book.ISBN book) ISBN)
                (LM.books this) = false) by (apply some_absent; exact H).
  rewrite E. reflexivity.
Qed.

Lemma removeBook_absent this ISBN now :
  (forall b, In b (LM.books this) -> has_isbn ISBN b = false) ->
  LM.removeBook ISBN now this
  = LM.mkOutcome (inl tt) this
      [Console Warn (JsString.template
         ["[WARNING] Intento de eliminar un libro inexistente con ISBN: "; ISBN])].
Proof.
  intros H. unfold LM.removeBook. run_method.
  assert (E : JsArray.findIndex (fun b => String.eqb (Book.ISBN b) ISBN)
                (LM.books this) = (-1)%Z) by (apply findIndex_absent; exact H).
  rewrite E. reflexivity.
Qed.

Lemma removeBook_present this ISBN now l1 b l2 :
  LM.books this = l1 ++ b :: l2 ->
  (forall b', In b' l1 -> has_isbn ISBN b' = false) ->
  has_isbn ISBN b = true ->
  LM.removeBook ISBN now this
  = LM.mkOutcome (inl tt)
      {| LM.books := l1 ++ l2;
         LM.loans := LM.loans this;
         LM.emailService := LM.emailService this;
         LM.observers := LM.observers this |}
      [Console Log (JsString.template
         ["[INFO] Libro eliminado: "; Book.title b; " (ISBN: "; ISBN; ")"])].
Proof.
  intros E Hl1 Hb. unfold LM.removeBook. run_method. rewrite E.
  rewrite (findIndex_first (fun b0 => String.eqb (Book.ISBN b0) ISBN) l1 b l2 Hl1 Hb).
  destruct (Z.eqb_spec (Z.of_nat (length l1)) (-1)) as [C|_]; [lia|].
  cbn [negb]. rewrite splice_one. run_method. reflexivity.
Qed.

Lemma loanBook_unknown this ISBN userID now :
  (forall b, In b (LM.books this) -> has_isbn ISBN b = false) ->
  LM.loanBook ISBN userID now this
  = LM.mkOutcome (inl tt) this
      [Console Warn (JsString.template
         ["[WARNING] Intento de préstamo de un libro inexistente con ISBN: "; ISBN])].
Proof.
  intros H. unfold LM.loanBook. run_method.
  assert (E : JsArray.find (fun b => String.eqb (Book.ISBN b) ISBN)
                (LM.books this) = None) by (apply find_absent; exact H).
  rewrite E. reflexivity.
Qed.

Lemma loanBook_known this ISBN userID now l1 b l2 :
  LM.books this = l1 ++ b :: l2 ->
  (forall b', In b' l1 -> has_isbn ISBN b' = false) ->
  has_isbn ISBN b = true ->
  LM.loanBook ISBN userID now this
  = LM.mkOutcome (inl tt)
      {| LM.books := LM.books this;
         LM.loans := LM.loans this ++ [Loan.mk ISBN userID now];
         LM.emailService := LM.emailService this;
         LM.observers := LM.observers this |}
      [Console Log (JsString.template
         ["[INFO] Préstamo registrado: "; Book.title b; " a "; userID]);
       Console Log (JsString.template
         ["Enviando email a "; userID; ": ";
          JsString.template ["Has solicitado el libro "; Book.title b]])].
Proof.
  intros E Hl1 Hb. unfold LM.loanBook. run_method. rewrite E.
  rewrite (find_first (fun b0 => String.eqb (Book.ISBN b0) ISBN) l1 b l2 Hl1 Hb).
  run_method. rewrite <- E. reflexivity.
Qed.

Lemma returnBook_none this ISBN userID now :
  (forall l, In l (LM.loans this) -> loan_of ISBN userID l = false) ->
  LM.returnBook ISBN userID now this
  = LM.mkOutcome (inl tt) this
      [Console Warn (JsString.template
         ["[WARNING] Intento de devolución de un libro no prestado: ISBN "; ISBN;
          ", Usuario "; userID])].
Proof.
  intros H. unfold LM.returnBook. run_method.
  assert (E : JsArray.findIndex
                (fun loan => String.eqb (Loan.ISBN loan) ISBN
                             && String.eqb (Loan.userID loan) userID)
                (LM.loans this) = (-1)%Z) by (apply findIndex_absent; exact H).
  rewrite E. reflexivity.
Qed.

Lemma returnBook_some this ISBN userID now l1 x l2 :
  LM.loans this = l1 ++ x :: l2 ->
  (forall l, In l l1 -> loan_of ISBN userID l = false) ->
  loan_of ISBN userID x = true ->
  LM.returnBook ISBN userID now this
  = LM.mkOutcome (inl tt)
      {| LM.books := LM.books this;
         LM.loans := l1 ++ l2;
         LM.emailService := LM.emailService this;
         LM.observers := LM.observers this |}
      (return_registered x ISBN userID ::
       match JsArray.find (has_isbn ISBN) (LM.books this) with
       | Some _ =>
           [Console Log (JsString.template
              ["Enviando email a "; userID; ": ";
               JsString.template
                 ["Has devuelto el libro con ISBN "; ISBN; ". ¡Gracias!"]])]
       | None =>
           [Console Error (JsString.template
              ["[ERROR] El libro con ISBN "; ISBN;
               " no se encontró en la biblioteca."])]
       end).
Proof.
  intros E Hl1 Hx. unfold LM.returnBook. run_method. rewrite E.
  rewrite (findIndex_first
             (fun loan => String.eqb (Loan.ISBN loan) ISBN
                          && String.eqb (Loan.userID loan) userID) l1 x l2 Hl1 Hx).
  destruct (Z.eqb_spec (Z.of_nat (length l1)) (-1)) as [C|_]; [lia|].
  cbn [negb]. rewrite splice_one. run_method.
  unfold has_isbn.
  destruct (JsArray.find (fun b => String.eqb (Book.ISBN b) ISBN) (LM.books this));
    reflexivity.
Qed.

End MethodFacts.

(** Every array either has no element passing a test or splits around the
    first one that does. *)
Lemma absent_or_first {A : Type} (p : A -> bool) (l : list A) :
  (forall x, In x l -> p x = false) \/
  (exists l1 x l2,
     l = l1 ++ x :: l2 /\ (forall y, In y l1 -> p y = false) /\ p x = true).
Proof.
  destruct (existsb p l) eqn:E.
  - right. apply first_split. apply existsb_exists in E as [x [Hx Hp]]. eauto.
  - left. apply (some_absent p l). exact E.
Qed.

Lemma count_isbn_app ISBN (l1 l2 : list Book.t) :
  count_isbn ISBN (l1 ++ l2) = (count_isbn ISBN l1 + count_isbn ISBN l2)%nat.
Proof. unfold count_isbn. now rewrite filter_app, length_app. Qed.

Lemma count_isbn_absent ISBN (l : list Book.t) :
  (forall b, In b l -> has_isbn ISBN b = false) -> count_isbn ISBN l = 0%nat.
Proof.
  intros H. unfold count_isbn.
  pose proof (filter_absent (has_isbn ISBN) l H) as E.
  unfold JsArray.filter in E. now rewrite E.
Qed.

Lemma count_isbn_cons ISBN b (l : list Book.t) :
  count_isbn ISBN (b :: l)
  = ((if has_isbn ISBN b then 1 else 0) + count_isbn ISBN l)%nat.
Proof. unfold count_isbn. simpl. now destruct (has_isbn ISBN b). Qed.

(** Taking a record out never raises a count. *)
Lemma unique_isbn_remove (l1 l2 : list Book.t) b :
  unique_isbn (l1 ++ b :: l2) -> unique_isbn (l1 ++ l2).
Proof.
  intros H i. specialize (H i).
  rewrite count_isbn_app in *. rewrite count_isbn_cons in H. lia.
Qed.

(** Appending a record whose isbn is not yet there keeps the isbns
    unique. *)
Lemma unique_isbn_push (l : list Book.t) title author ISBN :
  (forall b, In b l -> has_isbn ISBN b = false) ->
  unique_isbn l -> unique_isbn (l ++ [Book.mk title author ISBN]).
Proof.
  intros Habs H i. specialize (H i).
  rewrite count_isbn_app, count_isbn_cons. unfold has_isbn at 1. simpl.
  destruct (String.eqb_spec ISBN i) as [<-|_].
  - rewrite (count_isbn_absent ISBN l Habs). simpl. unfold count_isbn. simpl. lia.
  - unfold count_isbn at 2. simpl. lia.
Qed.

Section Frames.
Context {S : Type} {rt : JsRuntime}.
Implicit Types (this : LM.t S) (now : Date).

Lemma addObserver_outcome this user now :
  LM.addObserver user now this
  = LM.mkOutcome (inl tt)
      {| LM.books := LM.books this;
         LM.loans := LM.loans this;
         LM.emailService := LM.emailService this;
         LM.observers := LM.observers this ++ [user] |} [].
Proof. reflexivity. Qed.

Lemma removeObserver_books this user now :
  LM.books (LM.final (LM.removeObserver user now this)) = LM.books this.
Proof.
  unfold LM.removeObserver. run_method.
  destruct (negb _); reflexivity.
Qed.

Lemma notifyObservers_outcome this bookTitle now :
  LM.notifyObservers bookTitle now this
  = LM.mkOutcome (inl tt) this
      (flat_map (fun observer =>
                   Invoke_update observer bookTitle :: User_update observer bookTitle)
         (LM.observers this)).
Proof.
  unfold LM.notifyObservers, LM.console_log, LM.bind, LM.get.
  cbn [LM.value LM.final LM.trace].
  rewrite (forEach_emit
             (fun observer =>
                Invoke_update observer bookTitle :: User_update observer bookTitle)).
  reflexivity.
Qed.

Lemma printAllBooks_outcome this now :
  LM.printAllBooks now this
  = LM.mkOutcome (inl tt) this
      (flat_map (fun book =>
         [Console Log (JsString.template
            ["Título: "; Book.title book; ", Autor: "; Book.author book;
             ", ISBN: "; Book.ISBN book])]) (LM.books this)).
Proof.
  unfold LM.printAllBooks, LM.console_log, LM.bind, LM.get.
  cbn [LM.value LM.final LM.trace].
  rewrite (forEach_emit (fun book =>
         [Console Log (JsString.template
            ["Título: "; Book.title book; ", Autor: "; Book.author book;
             ", ISBN: "; Book.ISBN book])])).
  reflexivity.
Qed.

Lemma printAllLoans_outcome this now :
  LM.printAllLoans now this
  = LM.mkOutcome (inl tt) this
      (flat_map (fun loan =>
         [Console Log (JsString.template
            ["ISBN: "; Loan.ISBN loan; ", Usuario: "; Loan.userID loan;
             ", Fecha: "; Date_toString (Loan.date loan)])]) (LM.loans this)).
Proof.
  unfold LM.printAllLoans, LM.console_log, LM.bind, LM.get.
  cbn [LM.value LM.final LM.trace].
  rewrite (forEach_emit (fun loan =>
         [Console Log (JsString.template
            ["ISBN: "; Loan.ISBN loan; ", Usuario: "; Loan.userID loan;
             ", Fecha: "; Date_toString (Loan.date loan)])])).
  reflexivity.
Qed.

Lemma search_final this query now :
  LM.final (LM.search query now this) = this.
Proof.
  unfold LM.search. run_method.
  destruct (0 <? _)%nat; reflexivity.
Qed.

Lemma discard_final {A : Type} (m : LM.M S A) this now :
  LM.final (discard m now this) = LM.final (m now this).
Proof.
  unfold discard, LM.bind, LM.ret.
  destruct (LM.value (m now this)); reflexivity.
Qed.

Lemma discard_trace {A : Type} (m : LM.M S A) this now :
  LM.trace (discard m now this) = LM.trace (m now this).
Proof.
  unfold discard, LM.bind, LM.ret.
  destruct (LM.value (m now this)); cbn [LM.trace]; [apply app_nil_r|reflexivity].
Qed.

(** The calls keep the isbns of the collection unique. *)
Lemma perform_unique_isbn op now this :
  unique_isbn (LM.books this) ->
  unique_isbn (LM.books (LM.final (perform op now this))).
Proof.
  intros H. destruct op; cbn [perform].
  - exact H.
  - now rewrite removeObserver_books.
  - now rewrite notifyObservers_outcome.
  - destruct (absent_or_first (has_isbn ISBN) (LM.books this))
      as [Habs|(l1 & b & l2 & E & Hl1 & Hb)].
    + rewrite (addBook_fresh this title author ISBN now Habs).
      cbn [LM.final LM.books]. now apply unique_isbn_push.
    + rewrite addBook_duplicate; [exact H|].
      exists b. split; [|exact Hb]. rewrite E. apply in_elt.
  - destruct (absent_or_first (has_isbn ISBN) (LM.books this))
      as [Habs|(l1 & b & l2 & E & Hl1 & Hb)].
    + now rewrite (removeBook_absent this ISBN now Habs).
    + rewrite (removeBook_present this ISBN now l1 b l2 E Hl1 Hb).
      cbn [LM.final LM.books]. rewrite E in H. exact (unique_isbn_remove l1 l2 b H).
  - now rewrite discard_final.
  - now rewrite discard_final.
  - now rewrite discard_final.
  - now rewrite discard_final, search_final.
  - destruct (absent_or_first (has_isbn ISBN) (LM.books this))
      as [Habs|(l1 & b & l2 & E & Hl1 & Hb)].
    + now rewrite (loanBook_unknown this ISBN userID now Habs).
    + now rewrite (loanBook_known this ISBN userID now l1 b l2 E Hl1 Hb).
  - destruct (absent_or_first (loan_of ISBN userID) (LM.loans this))
      as [Habs|(l1 & x & l2 & E & Hl1 & Hx)].
    + now rewrite (returnBook_none this ISBN userID now Habs).
    + now rewrite (returnBook_some this ISBN userID now l1 x l2 E Hl1 Hx).
  - now rewrite printAllBooks_outcome.
  - now rewrite printAllLoans_outcome.
Qed.

Lemma run_unique_isbn calls this :
  unique_isbn (LM.books this) -> unique_isbn (LM.books (run calls this)).
Proof.
  revert this. induction calls as [|[now op] rest IH]; intros this H; simpl.
  - exact H.
  - apply IH. now apply perform_unique_isbn.
Qed.

End Frames.

(** ** Who gets called *)

Section Calls.
Context {S : Type} {rt : JsRuntime}.
Implicit Types (this : LM.t S) (now : Date).

(** [addBook] calls [update] on nobody, whatever the registry holds. *)
Lemma addBook_updates_nobody this title author ISBN now :
  updates_of (LM.trace (LM.addBook title author ISBN now this)) = [].
Proof.
  destruct (absent_or_first (has_isbn ISBN) (LM.books this))
    as [Habs|(l1 & b & l2 & E & Hl1 & Hb)].
  - now rewrite (addBook_fresh this title author ISBN now Habs).
  - rewrite addBook_duplicate; [reflexivity|].
    exists b. split; [|exact Hb]. rewrite E. apply in_elt.
Qed.

(** [notifyObservers] calls [update] on every registered observer, in the
    order of the registry. *)
Lemma notifyObservers_updates this bookTitle now :
  updates_of (LM.trace (LM.notifyObservers bookTitle now this))
  = map (fun observer => (observer, bookTitle)) (LM.observers this).
Proof.
  rewrite notifyObservers_outcome. cbn [LM.trace].
  induction (LM.observers this) as [|u r IH]; simpl; [reflexivity|].
  now rewrite IH.
Qed.

Lemma flat_map_no_service_call {A : Type} (f : A -> list Event) (l : list A) :
  (forall x, List.filter is_service_call (f x) = []) ->
  List.filter is_service_call (flat_map f l) = [].
Proof.
  intros H. induction l as [|x r IH]; simpl; [reflexivity|].
  now rewrite filter_app, H, IH.
Qed.

(** No method calls [sendEmail] on the injected service. *)
Lemma perform_no_service_call op now this :
  List.filter is_service_call (LM.trace (perform op now this)) = [].
Proof.
  destruct op; cbn [perform]; rewrite ?discard_trace.
  - reflexivity.
  - unfold LM.removeObserver. run_method. destruct (negb _); reflexivity.
  - rewrite notifyObservers_outcome. cbn [LM.trace].
    apply flat_map_no_service_call. reflexivity.
  - destruct (absent_or_first (has_isbn ISBN) (LM.books this))
      as [Habs|(l1 & b & l2 & E & Hl1 & Hb)].
    + now rewrite (addBook_fresh this title author ISBN now Habs).
    + rewrite addBook_duplicate; [reflexivity|].
      exists b. split; [|exact Hb]. rewrite E. apply in_elt.
  - destruct (absent_or_first (has_isbn ISBN) (LM.books this))
      as [Habs|(l1 & b & l2 & E & Hl1 & Hb)].
    + now rewrite (removeBook_absent this ISBN now Habs).
    + now rewrite (removeBook_present this ISBN now l1 b l2 E Hl1 Hb).
  - reflexivity.
  - reflexivity.
  - reflexivity.
  - unfold LM.search. run_method. destruct (0 <? _)%nat; reflexivity.
  - destruct (absent_or_first (has_isbn ISBN) (LM.books this))
      as [Habs|(l1 & b & l2 & E & Hl1 & Hb)].
    + now rewrite (loanBook_unknown this ISBN userID now Habs).
    + now rewrite (loanBook_known this ISBN userID now l1 b l2 E Hl1 Hb).
  - destruct (absent_or_first (loan_of ISBN userID) (LM.loans this))
      as [Habs|(l1 & x & l2 & E & Hl1 & Hx)].
    + now rewrite (returnBook_none this ISBN userID now Habs).
    + rewrite (returnBook_some this ISBN userID now l1 x l2 E Hl1 Hx).
      cbn [LM.trace]. destruct (JsArray.find _ _); reflexivity.
  - rewrite printAllBooks_outcome. cbn [LM.trace].
    apply flat_map_no_service_call. reflexivity.
  - rewrite printAllLoans_outcome. cbn [LM.trace].
    apply flat_map_no_service_call. reflexivity.
Qed.

End Calls.

(** ** The claims *)

(** C1 (the code departs from it).  Adding a book whose isbn is new inserts
    the record, but the listeners hear nothing: with Ana registered,
    [addBook("1984", "George Orwell", "42")] appends the record and calls
    [update] on nobody, where [notifyObservers("1984")] on the same object
    would have called Ana's [update] with the title. *)
Theorem C1_addBook_leaves_listeners_uncalled :
  let this : LM.t ConsoleEmailService :=
    {| LM.books := []; LM.loans := [];
       LM.emailService := new_ConsoleEmailService;
       LM.observers := [Sample.ana] |} in
  let o := @LM.addBook _ "1984" "George Orwell" "42" 1%Z this in
  LM.value o = inl tt /\
  LM.books (LM.final o) = [Book.mk "1984" "George Orwell" "42"] /\
  LM.observers (LM.final o) = [Sample.ana] /\
  LM.trace o = [Console Log "[INFO] Libro agregado: 1984 (ISBN: 42)"] /\
  updates_of (LM.trace o) = [] /\
  updates_of (LM.trace (@LM.notifyObservers _ "1984" 1%Z this))
  = [(Sample.ana, "1984")].
Proof. repeat split. Qed.

(** C2 (the code departs from it).  A successful [loanBook] and a
    [returnBook] that removes a loan of a book still in the catalog print
    through the manager's own private [sendEmail]; the service injected
    into the constructor is never called.  On the catalog holding
    "El Gran Gatsby", the two calls of the demonstration leave traces with
    no call of the service, while a call of the injected
    [ConsoleEmailService] would have shown up in them. *)
Theorem C2_injected_service_never_called :
  let this : LM.t ConsoleEmailService :=
    {| LM.books := [Sample.gatsby]; LM.loans := [];
       LM.emailService := new_ConsoleEmailService;
       LM.observers := [] |} in
  let lent := @LM.loanBook _ "123456789" "user01" 4%Z this in
  let back := @LM.returnBook _ Sample.runtime "123456789" "user01" 5%Z (LM.final lent) in
  LM.value lent = inl tt /\
  LM.loans (LM.final lent) = [Loan.mk "123456789" "user01" 4%Z] /\
  LM.trace lent
  = [Console Log "[INFO] Préstamo registrado: El Gran Gatsby a user01";
     Console Log "Enviando email a user01: Has solicitado el libro El Gran Gatsby"] /\
  List.filter is_service_call (LM.trace lent) = [] /\
  LM.value back = inl tt /\
  LM.loans (LM.final back) = [] /\
  LM.trace back
  = [Console Log "[INFO] Devolución registrada: 4: Usuario user01, Libro ISBN 123456789";
     Console Log "Enviando email a user01: Has devuelto el libro con ISBN 123456789. ¡Gracias!"] /\
  List.filter is_service_call (LM.trace back) = [] /\
  call_sendEmail (LM.emailService this) "user01" "Has solicitado el libro El Gran Gatsby"
  = [Invoke_sendEmail "user01" "Has solicitado el libro El Gran Gatsby";
     Console Log "[INFO] Enviando email a user01: Has solicitado el libro El Gran Gatsby"].
Proof. repeat split. Qed.

Section Claims.
Context {S : Type} {rt : JsRuntime}.
Implicit Types (this : LM.t S) (now : Date).

(** C3.  From the empty catalog, after any number of the calls of any
    sequence of calls of the public methods, the book collection holds at
    most one record for each isbn. *)
Theorem C3_unique_isbn_always (svc : S) (calls : list (Date * Op)) (n : nat) :
  unique_isbn (LM.books (run (firstn n calls) (LM.new svc))).
Proof.
  apply run_unique_isbn. intros i. cbn. lia.
Qed.

(** C4.  When the catalog already holds a book with the isbn, [addBook]
    returns normally, prints one line at the error level, and leaves the
    whole object, the stored record included, as it was. *)
Theorem C4_addBook_duplicate_rejected this title2 author2 ISBN now :
  (exists b, In b (LM.books this) /\ Book.ISBN b = ISBN) ->
  let o := LM.addBook title2 author2 ISBN now this in
  LM.value o = inl tt /\
  LM.final o = this /\
  LM.trace o
  = [Console Error (JsString.template
       ["[ERROR] El libro con ISBN "; ISBN; " ya existe en la biblioteca."])] /\
  (forall b, In b (LM.books this) -> Book.ISBN b = ISBN ->
             In b (LM.books (LM.final o))) /\
  (forall now', LM.value (LM.searchByISBN ISBN now' (LM.final o))
                = LM.value (LM.searchByISBN ISBN now' this)).
Proof.
  intros [b [Hin Hb]] o.
  assert (E : o = LM.mkOutcome (inl tt) this
                    [Console Error (JsString.template
                       ["[ERROR] El libro con ISBN "; ISBN;
                        " ya existe en la biblioteca."])]).
  { apply addBook_duplicate. exists b. split; [exact Hin|].
    unfold has_isbn. rewrite Hb. apply String.eqb_refl. }
  rewrite E. cbn [LM.value LM.final LM.trace]. repeat split. tauto.
Qed.

(** C5.  [returnBook] with no outstanding loan of the isbn to the user
    prints a warning and changes nothing.  Otherwise it takes out the first
    such loan and no other; it then prints through the manager's
    [sendEmail] when the catalog still holds the book, and prints one line
    at the error level, with no thank-you message, when it does not: the
    removal stays in both cases.  When the loan taken out was the only
    one, a second call is the warning case again. *)
Theorem C5_returnBook_first_match this ISBN userID now :
  let o := LM.returnBook ISBN userID now this in
  let warning :=
    [Console Warn (JsString.template
       ["[WARNING] Intento de devolución de un libro no prestado: ISBN "; ISBN;
        ", Usuario "; userID])] in
  ((forall l, In l (LM.loans this) -> loan_of ISBN userID l = false) ->
   LM.value o = inl tt /\ LM.final o = this /\ LM.trace o = warning) /\
  (forall l1 x l2,
     LM.loans this = l1 ++ x :: l2 ->
     (forall l, In l l1 -> loan_of ISBN userID l = false) ->
     loan_of ISBN userID x = true ->
     LM.value o = inl tt /\
     LM.final o
     = {| LM.books := LM.books this;
          LM.loans := l1 ++ l2;
          LM.emailService := LM.emailService this;
          LM.observers := LM.observers this |} /\
     ((exists b, In b (LM.books this) /\ has_isbn ISBN b = true) ->
      LM.trace o
      = [return_registered x ISBN userID;
         Console Log (JsString.template
           ["Enviando email a "; userID; ": ";
            JsString.template
              ["Has devuelto el libro con ISBN "; ISBN; ". ¡Gracias!"]])]) /\
     ((forall b, In b (LM.books this) -> has_isbn ISBN b = false) ->
      LM.trace o
      = [return_registered x ISBN userID;
         Console Error (JsString.template
           ["[ERROR] El libro con ISBN "; ISBN;
            " no se encontró en la biblioteca."])]) /\
     ((forall l, In l l2 -> loan_of ISBN userID l = false) ->
      forall now',
        let o2 := LM.returnBook ISBN userID now' (LM.final o) in
        LM.value o2 = inl tt /\ LM.final o2 = LM.final o /\ LM.trace o2 = warning)).
Proof.
  intros o warning. split.
  - intros Habs. subst o. rewrite (returnBook_none this ISBN userID now Habs).
    repeat split.
  - intros l1 x l2 E Hl1 Hx. subst o.
    rewrite (returnBook_some this ISBN userID now l1 x l2 E Hl1 Hx).
    cbn [LM.value LM.final LM.trace]. repeat split.
    + intros [b [Hin Hb]].
      destruct (JsArray.find (has_isbn ISBN) (LM.books this)) eqn:F; [reflexivity|].
      pose proof (proj1 (find_absent _ _) F b Hin). congruence.
    + intros Habs.
      now rewrite (proj2 (find_absent (has_isbn ISBN) (LM.books this)) Habs).
    + rewrite returnBook_none; [reflexivity|].
      cbn [LM.loans]. intros l Hl. apply in_app_or in Hl as [Hl|Hl]; auto.
    + rewrite returnBook_none; [reflexivity|].
      cbn [LM.loans]. intros l Hl. apply in_app_or in Hl as [Hl|Hl]; auto.
    + rewrite returnBook_none; [reflexivity|].
      cbn [LM.loans]. intros l Hl. apply in_app_or in Hl as [Hl|Hl]; auto.
Qed.

(** C6 (as amended).  A query that matches no book, by title, by author or
    by isbn, makes [search] return the empty array, normally, with the
    object untouched and one line on the console.  The empty query is not
    such a query: it occurs in every title, and [search] then returns the
    whole collection, in order. *)
Theorem C6_search_without_match this query now :
  ((forall b, In b (LM.books this) -> matches_query query b = false) ->
   let o := LM.search query now this in
   LM.value o = inl [] /\ LM.final o = this /\
   LM.trace o
   = [Console Log (JsString.template
        ["[INFO] Búsqueda para "; JsString.dquote; query; JsString.dquote;
         " no produjo resultados."])]) /\
  LM.value (LM.search EmptyString now this) = inl (LM.books this) /\
  LM.final (LM.search EmptyString now this) = this.
Proof.
  split; [|split].
  - intros Habs o. subst o. unfold LM.search. run_method.
    pose proof (filter_absent (matches_query query) (LM.books this) Habs) as E.
    unfold matches_query in E. rewrite E. repeat split.
  - unfold LM.search. run_method.
    assert (E : JsArray.filter
                  (fun book =>
                     JsString.includes (Book.title book) EmptyString
                     || JsString.includes (Book.author book) EmptyString
                     || String.eqb (Book.ISBN book) EmptyString)
                  (LM.books this) = LM.books this).
    { apply filter_all. intros b _. now rewrite includes_empty. }
    rewrite E. destruct (0 <? _)%nat; reflexivity.
  - apply search_final.
Qed.

(** C7 (as amended).  [addObserver] appends the listener whether or not it
    is registered already, so a second registration adds a second entry;
    [removeObserver] of a listener that is not registered returns
    normally, prints nothing and leaves the object as it was. *)
Theorem C7_observer_registry this user now now' :
  LM.observers (LM.final (LM.addObserver user now this))
  = LM.observers this ++ [user] /\
  LM.observers (LM.final (LM.addObserver user now'
                            (LM.final (LM.addObserver user now this))))
  = (LM.observers this ++ [user]) ++ [user] /\
  ((forall v, In v (LM.observers this) -> User.same v user = false) ->
   let o := LM.removeObserver user now this in
   LM.value o = inl tt /\ LM.final o = this /\ LM.trace o = []).
Proof.
  split; [reflexivity|]. split; [reflexivity|].
  intros Habs o. subst o. unfold LM.removeObserver. run_method.
  unfold JsArray.indexOf.
  rewrite (proj2 (findIndex_absent (fun y => User.same y user)
                    (LM.observers this)) Habs).
  repeat split.
Qed.

(** C8.  When no book of the catalog carries the isbn, [loanBook] prints a
    warning and nothing else, so no message is sent, and leaves the object
    as it was.  When a book carries it, [loanBook] appends one loan record
    made of the isbn, the user and the instant of the call, and changes
    nothing else; the loans of this isbn to this user grow by one,
    whatever was outstanding before. *)
Theorem C8_loanBook this ISBN userID now :
  let o := LM.loanBook ISBN userID now this in
  ((forall b, In b (LM.books this) -> has_isbn ISBN b = false) ->
   LM.value o = inl tt /\ LM.final o = this /\
   LM.trace o
   = [Console Warn (JsString.template
        ["[WARNING] Intento de préstamo de un libro inexistente con ISBN: ";
         ISBN])]) /\
  ((exists b, In b (LM.books this) /\ has_isbn ISBN b = true) ->
   LM.value o = inl tt /\
   LM.final o
   = {| LM.books := LM.books this;
        LM.loans := LM.loans this ++ [Loan.mk ISBN userID now];
        LM.emailService := LM.emailService this;
        LM.observers := LM.observers this |} /\
   length (List.filter (loan_of ISBN userID) (LM.loans (LM.final o)))
   = Datatypes.S (length (List.filter (loan_of ISBN userID) (LM.loans this)))).
Proof.
  intros o. split.
  - intros Habs. subst o. rewrite (loanBook_unknown this ISBN userID now Habs).
    repeat split.
  - intros Hex. apply first_split in Hex as (l1 & b & l2 & E & Hl1 & Hb).
    subst o. rewrite (loanBook_known this ISBN userID now l1 b l2 E Hl1 Hb).
    cbn [LM.value LM.final LM.loans]. repeat split.
    rewrite filter_app, length_app. unfold loan_of at 2. simpl.
    rewrite !String.eqb_refl. simpl. lia.
Qed.

(** C9.  When no book of the catalog carries the isbn, [removeBook] prints
    a warning and leaves the object as it was.  When one does, it takes
    out the first such record and no other, leaves the rest of the object
    alone, and prints one informational line with the title of the record
    it took out. *)
Theorem C9_removeBook this ISBN now :
  let o := LM.removeBook ISBN now this in
  ((forall b, In b (LM.books this) -> has_isbn ISBN b = false) ->
   LM.value o = inl tt /\ LM.final o = this /\
   LM.trace o
   = [Console Warn (JsString.template
        ["[WARNING] Intento de eliminar un libro inexistente con ISBN: "; ISBN])]) /\
  (forall l1 b l2,
     LM.books this = l1 ++ b :: l2 ->
     (forall b', In b' l1 -> has_isbn ISBN b' = false) ->
     has_isbn ISBN b = true ->
     LM.value o = inl tt /\
     LM.final o
     = {| LM.books := l1 ++ l2;
          LM.loans := LM.loans this;
          LM.emailService := LM.emailService this;
          LM.observers := LM.observers this |} /\
     length (LM.books (LM.final o)) = Nat.pred (length (LM.books this)) /\
     LM.trace o
     = [Console Log (JsString.template
          ["[INFO] Libro eliminado: "; Book.title b; " (ISBN: "; ISBN; ")"])]).
Proof.
  intros o. split.
  - intros Habs. subst o. rewrite (removeBook_absent this ISBN now Habs).
    repeat split.
  - intros l1 b l2 E Hl1 Hb. subst o.
    rewrite (removeBook_present this ISBN now l1 b l2 E Hl1 Hb).
    cbn [LM.value LM.final LM.trace LM.books]. repeat split.
    rewrite E, !length_app. simpl. lia.
Qed.

(** C10.  The three searches by field, [search], [printAllBooks] and
    [printAllLoans] leave the object, its books, loans and observers, as
    it was before the call. *)
Theorem C10_reads_leave_the_object this now title author ISBN query :
  LM.final (LM.searchByTitle title now this) = this /\
  LM.final (LM.searchByAuthor author now this) = this /\
  LM.final (LM.searchByISBN ISBN now this) = this /\
  LM.final (LM.search query now this) = this /\
  LM.final (LM.printAllBooks now this) = this /\
  LM.final (LM.printAllLoans now this) = this.
Proof.
  repeat split.
  - apply search_final.
  - now rewrite printAllBooks_outcome.
  - now rewrite printAllLoans_outcome.
Qed.

End Claims.

(** ** The claims at work on the sample catalog *)

Lemma C4_witness :
  (exists b, In b (LM.books Sample.shelf) /\ Book.ISBN b = "123456789") /\
  let o := @LM.addBook _ "1984" "George Orwell" "123456789" 2%Z Sample.shelf in
  LM.final o = Sample.shelf /\
  LM.trace o
  = [Console Error "[ERROR] El libro con ISBN 123456789 ya existe en la biblioteca."].
Proof.
  assert (H : exists b, In b (LM.books Sample.shelf) /\ Book.ISBN b = "123456789").
  { exists Sample.gatsby. split; [left; reflexivity | reflexivity]. }
  split; [exact H|].
  destruct (@C4_addBook_duplicate_rejected ConsoleEmailService Sample.shelf
              "1984" "George Orwell" "123456789" 2%Z H) as (_ & Hf & Ht & _).
  split; [exact Hf | exact Ht].
Defined.

Lemma C5_witness :
  (* nothing lent: the warning, and nothing changes *)
  LM.final (@LM.returnBook _ Sample.runtime "987654321" "user01" 3%Z Sample.shelf)
  = Sample.shelf /\
  (* the loan is taken out, and a second call changes nothing more *)
  LM.final (@LM.returnBook _ Sample.runtime "123456789" "user01" 5%Z Sample.lent)
  = Sample.shelf /\
  LM.final (@LM.returnBook _ Sample.runtime "123456789" "user01" 6%Z
              (LM.final (@LM.returnBook _ Sample.runtime "123456789" "user01" 5%Z
                           Sample.lent)))
  = LM.final (@LM.returnBook _ Sample.runtime "123456789" "user01" 5%Z Sample.lent) /\
  LM.trace (@LM.returnBook _ Sample.runtime "123456789" "user01" 5%Z Sample.lent)
  = [Console Log "[INFO] Devolución registrada: 4: Usuario user01, Libro ISBN 123456789";
     Console Log "Enviando email a user01: Has devuelto el libro con ISBN 123456789. ¡Gracias!"] /\
  (* the book is gone: the loan is taken out all the same *)
  LM.loans (LM.final (@LM.returnBook _ Sample.runtime "123456789" "user01" 5%Z
                        Sample.dangling)) = [] /\
  LM.trace (@LM.returnBook _ Sample.runtime "123456789" "user01" 5%Z Sample.dangling)
  = [Console Log "[INFO] Devolución registrada: 4: Usuario user01, Libro ISBN 123456789";
     Console Error "[ERROR] El libro con ISBN 123456789 no se encontró en la biblioteca."].
Proof.
  destruct (@C5_returnBook_first_match ConsoleEmailService Sample.runtime
              Sample.shelf "987654321" "user01" 3%Z) as [Hnone _].
  destruct (Hnone (fun l (H : In l []) => match H with end)) as (_ & Hshelf & _).
  destruct (@C5_returnBook_first_match ConsoleEmailService Sample.runtime
              Sample.lent "123456789" "user01" 5%Z) as [_ Hlent].
  destruct (Hlent [] Sample.loan1 [] eq_refl
              (fun l (H : In l []) => match H with end) eq_refl)
    as (_ & Hf & Hbook & _ & Hsecond).
  destruct (Hsecond (fun l (H : In l []) => match H with end) 6%Z) as (_ & Hf2 & _).
  assert (Hex : exists b, In b (LM.books Sample.lent)
                          /\ has_isbn "123456789" b = true).
  { exists Sample.gatsby. split; [left; reflexivity | reflexivity]. }
  destruct (@C5_returnBook_first_match ConsoleEmailService Sample.runtime
              Sample.dangling "123456789" "user01" 5%Z) as [_ Hdang].
  destruct (Hdang [] Sample.loan1 [] eq_refl
              (fun l (H : In l []) => match H with end) eq_refl)
    as (_ & Hf3 & _ & Hgone & _).
  split; [exact Hshelf|].
  split; [exact Hf|].
  split; [exact Hf2|].
  split; [exact (Hbook Hex)|].
  split; [rewrite Hf3; reflexivity|].
  exact (Hgone (fun b (H : In b []) => match H with end)).
Defined.

Lemma C6_counterexample :
  LM.value (@LM.search ConsoleEmailService EmptyString 1%Z Sample.shelf)
  = inl [Sample.gatsby] /\
  LM.value (@LM.search ConsoleEmailService EmptyString 1%Z Sample.shelf)
  <> inl [].
Proof. split; [reflexivity | discriminate]. Qed.

Lemma C6_witness :
  (forall b, In b (LM.books Sample.shelf) -> matches_query "Orwell" b = false) /\
  LM.value (@LM.search ConsoleEmailService "Orwell" 1%Z Sample.shelf) = inl [] /\
  LM.value (@LM.search ConsoleEmailService EmptyString 1%Z Sample.shelf)
  = inl [Sample.gatsby].
Proof.
  assert (H : forall b, In b (LM.books Sample.shelf)
                        -> matches_query "Orwell" b = false).
  { intros b [<-|[]]. reflexivity. }
  split; [exact H|].
  destruct (@C6_search_without_match ConsoleEmailService Sample.shelf "Orwell" 1%Z)
    as (Hq & Hall & _).
  destruct (Hq H) as (Hv & _).
  split; [exact Hv | exact Hall].
Defined.

Lemma C7_counterexample :
  LM.observers
    (LM.final (LM.addObserver Sample.ana 2%Z
                 (LM.final (LM.addObserver Sample.ana 1%Z Sample.libraryex))))
  <> LM.observers (LM.final (LM.addObserver Sample.ana 1%Z Sample.libraryex)).
Proof. discriminate. Qed.

Lemma C7_witness :
  (forall v, In v (LM.observers Sample.libraryex)
             -> User.same v Sample.ana = false) /\
  LM.observers
    (LM.final (LM.addObserver Sample.ana 2%Z
                 (LM.final (LM.addObserver Sample.ana 1%Z Sample.libraryex))))
  = [Sample.ana; Sample.ana] /\
  LM.final (LM.removeObserver Sample.ana 3%Z Sample.libraryex) = Sample.libraryex /\
  LM.trace (LM.removeObserver Sample.ana 3%Z Sample.libraryex) = [].
Proof.
  assert (H : forall v, In v (LM.observers Sample.libraryex)
                        -> User.same v Sample.ana = false).
  { intros v []. }
  split; [exact H|].
  destruct (@C7_observer_registry ConsoleEmailService Sample.libraryex
              Sample.ana 1%Z 2%Z) as (_ & Htwice & _).
  destruct (@C7_observer_registry ConsoleEmailService Sample.libraryex
              Sample.ana 3%Z 3%Z) as (_ & _ & Hrm).
  destruct (Hrm H) as (_ & Hf & Ht).
  split; [exact Htwice | split; [exact Hf | exact Ht]].
Defined.

Lemma C8_witness :
  (* an isbn the catalog does not hold *)
  (forall b, In b (LM.books Sample.shelf) -> has_isbn "987654321" b = false) /\
  LM.final (@LM.loanBook _ "987654321" "user01" 4%Z Sample.shelf) = Sample.shelf /\
  (* a second loan of the same book to the same user *)
  (exists b, In b (LM.books Sample.lent) /\ has_isbn "123456789" b = true) /\
  LM.loans (LM.final (@LM.loanBook _ "123456789" "user01" 8%Z Sample.lent))
  = [Sample.loan1; Loan.mk "123456789" "user01" 8%Z].
Proof.
  assert (Habs : forall b, In b (LM.books Sample.shelf)
                           -> has_isbn "987654321" b = false).
  { intros b [<-|[]]. reflexivity. }
  assert (Hex : exists b, In b (LM.books Sample.lent)
                          /\ has_isbn "123456789" b = true).
  { exists Sample.gatsby. split; [left; reflexivity | reflexivity]. }
  destruct (@C8_loanBook ConsoleEmailService Sample.shelf "987654321" "user01" 4%Z)
    as [Hunknown _].
  destruct (Hunknown Habs) as (_ & Hf & _).
  destruct (@C8_loanBook ConsoleEmailService Sample.lent "123456789" "user01" 8%Z)
    as [_ Hknown].
  destruct (Hknown Hex) as (_ & Hf2 & _).
  split; [exact Habs|].
  split; [exact Hf|].
  split; [exact Hex|].
  rewrite Hf2. reflexivity.
Defined.

Lemma C9_witness :
  (forall b, In b (LM.books Sample.shelf) -> has_isbn "987654321" b = false) /\
  LM.final (@LM.removeBook _ "987654321" 4%Z Sample.shelf) = Sample.shelf /\
  LM.books (LM.final (@LM.removeBook _ "123456789" 4%Z Sample.lent)) = [] /\
  LM.trace (@LM.removeBook _ "123456789" 4%Z Sample.lent)
  = [Console Log "[INFO] Libro eliminado: El Gran Gatsby (ISBN: 123456789)"].
Proof.
  assert (Habs : forall b, In b (LM.books Sample.shelf)
                           -> has_isbn "987654321" b = false).
  { intros b [<-|[]]. reflexivity. }
  destruct (@C9_removeBook ConsoleEmailService Sample.shelf "987654321" 4%Z)
    as [Hnone _].
  destruct (Hnone Habs) as (_ & Hf & _).
  destruct (@C9_removeBook ConsoleEmailService Sample.lent "123456789" 4%Z)
    as [_ Hsome].
  destruct (Hsome [] Sample.gatsby [] eq_refl
              (fun b (H : In b []) => match H with end) eq_refl)
    as (_ & Hf2 & _ & Ht).
  split; [exact Habs|].
  split; [exact Hf|].
  split; [rewrite Hf2; reflexivity|].
  exact Ht.
Defined.

(** ** Further properties of the program *)

(** *** Substrings *)

Lemma startsWith_prefix (s q : string) :
  JsString.startsWith s q = true <-> exists post, s = (q ++ post)%string.
Proof.
  revert s. induction q as [|c q IH]; intros s.
  - split; [intros _; exists s; reflexivity|]. intros _. now destruct s.
  - destruct s as [|d s]; simpl.
    + split; [discriminate|]. intros [post H]. discriminate.
    + rewrite andb_true_iff, IH. split.
      * intros [Hc [post ->]]. apply Ascii.eqb_eq in Hc as ->. now exists post.
      * intros [post H]. injection H as -> ->. split; [apply Ascii.eqb_refl|].
        now exists post.
Qed.

(** [includes] holds exactly of the contiguous substrings. *)
Lemma includes_substring (s q : string) :
  JsString.includes s q = true
  <-> exists pre post, s = (pre ++ q ++ post)%string.
Proof.
  induction s as [|a s IH].
  - cbn [JsString.includes]. rewrite orb_false_r, startsWith_prefix. split.
    + intros [post H]. exists EmptyString, post. exact H.
    + intros (pre & post & H). destruct pre; [|discriminate]. now exists post.
  - cbn [JsString.includes]. rewrite orb_true_iff, startsWith_prefix, IH. split.
    + intros [[post H]|(pre & post & H)].
      * exists EmptyString, post. exact H.
      * exists (String a pre), post. simpl. now rewrite H.
    + intros (pre & post & H). destruct pre as [|a' pre].
      * left. now exists post.
      * right. simpl in H. injection H as _ H. now exists pre, post.
Qed.

Lemma includes_self (s : string) : JsString.includes s s = true.
Proof.
  apply includes_substring. exists EmptyString, EmptyString. simpl.
  induction s as [|a s IH]; simpl; [reflexivity|]. now rewrite <- IH.
Qed.

(** *** Counting isbns *)

Lemma count_isbn_present ISBN (l : list Book.t) b :
  In b l -> has_isbn ISBN b = true -> (1 <= count_isbn ISBN l)%nat.
Proof.
  intros Hin Hb. apply in_split in Hin as (l1 & l2 & ->).
  rewrite count_isbn_app, count_isbn_cons, Hb. lia.
Qed.

Lemma count_isbn_none ISBN (l : list Book.t) :
  count_isbn ISBN l = 0%nat -> forall b, In b l -> has_isbn ISBN b = false.
Proof.
  intros H b Hin. destruct (has_isbn ISBN b) eqn:Hb; [|reflexivity].
  pose proof (count_isbn_present ISBN l b Hin Hb). lia.
Qed.

(** With unique isbns, the record found first is the only one. *)
Lemma unique_isbn_around (l1 l2 : list Book.t) b ISBN :
  unique_isbn (l1 ++ b :: l2) -> has_isbn ISBN b = true ->
  forall b', In b' (l1 ++ l2) -> has_isbn ISBN b' = false.
Proof.
  intros H Hb. specialize (H ISBN).
  rewrite count_isbn_app, count_isbn_cons, Hb in H.
  apply count_isbn_none. rewrite count_isbn_app. lia.
Qed.


(** *** More about the array methods *)

Lemma find_split {A : Type} (p : A -> bool) (l : list A) (x : A) :
  JsArray.find p l = Some x ->
  exists l1 l2,
    l = l1 ++ x :: l2 /\ (forall y, In y l1 -> p y = false) /\ p x = true.
Proof.
  unfold JsArray.find. induction l as [|y r IH]; simpl; [discriminate|].
  destruct (p y) eqn:Hy.
  - intros [= ->]. exists [], r. repeat split; [intros z []|assumption].
  - intros H. destruct (IH H) as (l1 & l2 & -> & Hl1 & Hx).
    exists (y :: l1), l2. repeat split; [|assumption].
    intros z [<-|Hz]; [assumption|now apply Hl1].
Qed.

Lemma find_push {A : Type} (p : A -> bool) (l : list A) (x : A) :
  JsArray.find p (l ++ [x])
  = match JsArray.find p l with
    | Some y => Some y
    | None => if p x then Some x else None
    end.
Proof.
  unfold JsArray.find. induction l as [|y r IH]; simpl; [reflexivity|].
  destruct (p y); [reflexivity|exact IH].
Qed.

Lemma existsb_first {A : Type} (p : A -> bool) (l1 l2 : list A) (x : A) :
  p x = true -> existsb p (l1 ++ x :: l2) = true.
Proof.
  intros Hx. apply existsb_exists. exists x. split; [apply in_elt|exact Hx].
Qed.

Lemma filter_others {A : Type} (p : A -> bool) (l1 l2 : list A) (x : A) :
  p x = true ->
  List.filter (fun y => negb (p y)) (l1 ++ x :: l2)
  = List.filter (fun y => negb (p y)) (l1 ++ l2).
Proof.
  intros Hx. rewrite !filter_app. simpl. now rewrite Hx.
Qed.

Section Lookups.
Context {S : Type} {rt : JsRuntime}.
Implicit Types (this : LM.t S) (now : Date).

Lemma searchByISBN_outcome this ISBN now :
  LM.searchByISBN ISBN now this
  = LM.mkOutcome (inl (JsArray.find (has_isbn ISBN) (LM.books this))) this [].
Proof. reflexivity. Qed.

Lemma search_value this query now :
  LM.value (LM.search query now this)
  = inl (List.filter (matches_query query) (LM.books this)).
Proof.
  unfold LM.search. run_method.
  change (fun book : Book.t =>
            JsString.includes (Book.title book) query
            || JsString.includes (Book.author book) query
            || String.eqb (Book.ISBN book) query)
    with (matches_query query).
  unfold JsArray.filter. destruct (0 <? _)%nat; reflexivity.
Qed.

(** X1.  [searchByTitle] returns, in catalog order, exactly the books whose
    title holds the query as a contiguous run of characters, and
    [searchByAuthor] does the same with the author. *)
Theorem searchBy_field_substring this query now :
  (exists r,
     LM.value (LM.searchByTitle query now this) = inl r /\
     r = List.filter (fun b => JsString.includes (Book.title b) query)
           (LM.books this) /\
     forall b, In b r <->
               In b (LM.books this) /\
               exists pre post, Book.title b = (pre ++ query ++ post)%string) /\
  (exists r,
     LM.value (LM.searchByAuthor query now this) = inl r /\
     r = List.filter (fun b => JsString.includes (Book.author b) query)
           (LM.books this) /\
     forall b, In b r <->
               In b (LM.books this) /\
               exists pre post, Book.author b = (pre ++ query ++ post)%string).
Proof.
  split; eexists; (split; [reflexivity|]); (split; [reflexivity|]);
    intros b; unfold JsArray.filter; rewrite filter_In, includes_substring;
    reflexivity.
Qed.

(** X2.  [search] returns the books of the catalog that [searchByTitle]
    returns, or [searchByAuthor] returns, or whose isbn is the query: each
    of them once, in catalog order. *)
Theorem search_is_union this query now :
  exists r byTitle byAuthor,
    LM.value (LM.search query now this) = inl r /\
    LM.value (LM.searchByTitle query now this) = inl byTitle /\
    LM.value (LM.searchByAuthor query now this) = inl byAuthor /\
    r = List.filter (matches_query query) (LM.books this) /\
    forall b, In b r <->
              In b byTitle \/ In b byAuthor \/
              (In b (LM.books this) /\ Book.ISBN b = query).
Proof.
  exists (List.filter (matches_query query) (LM.books this)).
  eexists. eexists.
  split; [apply search_value|].
  split; [reflexivity|]. split; [reflexivity|]. split; [reflexivity|].
  intros b. unfold JsArray.filter. rewrite !filter_In. unfold matches_query.
  rewrite !orb_true_iff, String.eqb_eq. tauto.
Qed.

(** X3.  A book of the catalog is found by [search] under its full title,
    under its full author and under its isbn, and by [searchByTitle] and
    [searchByAuthor] under its full title and author. *)
Theorem book_found_by_its_fields this b now :
  In b (LM.books this) ->
  (exists r, LM.value (LM.search (Book.title b) now this) = inl r /\ In b r) /\
  (exists r, LM.value (LM.search (Book.author b) now this) = inl r /\ In b r) /\
  (exists r, LM.value (LM.search (Book.ISBN b) now this) = inl r /\ In b r) /\
  (exists r, LM.value (LM.searchByTitle (Book.title b) now this) = inl r /\ In b r) /\
  (exists r, LM.value (LM.searchByAuthor (Book.author b) now this) = inl r /\ In b r).
Proof.
  intros Hin.
  assert (Hsearch : forall q, matches_query q b = true ->
            exists r, LM.value (LM.search q now this) = inl r /\ In b r).
  { intros q Hq. exists (List.filter (matches_query q) (LM.books this)).
    split; [apply search_value|]. apply filter_In. split; assumption. }
  repeat split.
  - apply Hsearch. unfold matches_query. now rewrite includes_self.
  - apply Hsearch. unfold matches_query. rewrite includes_self.
    now rewrite orb_true_r.
  - apply Hsearch. unfold matches_query. rewrite String.eqb_refl.
    now rewrite orb_true_r.
  - eexists. split; [reflexivity|]. apply filter_In. split; [assumption|].
    apply includes_self.
  - eexists. split; [reflexivity|]. apply filter_In. split; [assumption|].
    apply includes_self.
Qed.

End Lookups.

Section Catalog.
Context {S : Type} {rt : JsRuntime}.
Implicit Types (this : LM.t S) (now : Date).


(** X5.  [addBook] with an isbn the catalog does not hold returns
    normally, appends the record after the books already there, changes
    nothing else, prints one informational line and calls [update] on no
    observer.  Afterwards [searchByISBN] finds the new record under its
    isbn and answers as before under every other isbn. *)
Theorem addBook_then_searchByISBN this title author ISBN now now' :
  (forall b, In b (LM.books this) -> has_isbn ISBN b = false) ->
  let o := LM.addBook title author ISBN now this in
  LM.value o = inl tt /\
  LM.final o
  = {| LM.books := LM.books this ++ [Book.mk title author ISBN];
       LM.loans := LM.loans this;
       LM.emailService := LM.emailService this;
       LM.observers := LM.observers this |} /\
  LM.trace o
  = [Console Log (JsString.template
       ["[INFO] Libro agregado: "; title; " (ISBN: "; ISBN; ")"])] /\
  updates_of (LM.trace o) = [] /\
  LM.value (LM.searchByISBN ISBN now' (LM.final o))
  = inl (Some (Book.mk title author ISBN)) /\
  (forall other, other <> ISBN ->
     LM.value (LM.searchByISBN other now' (LM.final o))
     = LM.value (LM.searchByISBN other now' this)).
Proof.
  intros Habs o. subst o. rewrite (addBook_fresh this title author ISBN now Habs).
  cbn [LM.value LM.final LM.trace]. repeat split.
  - rewrite searchByISBN_outcome. cbn [LM.value LM.books]. rewrite find_push.
    rewrite (proj2 (find_absent (has_isbn ISBN) (LM.books this)) Habs).
    unfold has_isbn. cbn [Book.ISBN]. now rewrite String.eqb_refl.
  - intros other Hother. rewrite !searchByISBN_outcome. cbn [LM.value LM.books].
    rewrite find_push. unfold has_isbn at 2. cbn [Book.ISBN].
    rewrite (proj2 (String.eqb_neq ISBN other)) by congruence.
    now destruct (JsArray.find (has_isbn other) (LM.books this)).
Qed.

(** After [removeBook], a catalog with unique isbns holds no book of the
    isbn. *)
Lemma removeBook_clears this ISBN now :
  unique_isbn (LM.books this) ->
  forall b, In b (LM.books (LM.final (LM.removeBook ISBN now this))) ->
            has_isbn ISBN b = false.
Proof.
  intros Huniq.
  destruct (absent_or_first (has_isbn ISBN) (LM.books this))
    as [Habs|(l1 & b & l2 & E & Hl1 & Hb)].
  - now rewrite (removeBook_absent this ISBN now Habs).
  - rewrite (removeBook_present this ISBN now l1 b l2 E Hl1 Hb).
    cbn [LM.final LM.books]. rewrite E in Huniq.
    exact (unique_isbn_around l1 l2 b ISBN Huniq Hb).
Qed.

(** X6.  In a catalog with unique isbns, after [removeBook(isbn)] the
    search [searchByISBN(isbn)] answers [undefined], and the isbn is free
    again: an [addBook] with it succeeds and its record is the one found
    from then on. *)
Theorem removeBook_frees_the_isbn this ISBN now now' now'' title author :
  unique_isbn (LM.books this) ->
  let removed := LM.final (LM.removeBook ISBN now this) in
  let added := LM.addBook title author ISBN now' removed in
  LM.value (LM.searchByISBN ISBN now' removed) = inl None /\
  LM.trace added
  = [Console Log (JsString.template
       ["[INFO] Libro agregado: "; title; " (ISBN: "; ISBN; ")"])] /\
  LM.books (LM.final added) = LM.books removed ++ [Book.mk title author ISBN] /\
  LM.value (LM.searchByISBN ISBN now'' (LM.final added))
  = inl (Some (Book.mk title author ISBN)).
Proof.
  intros Huniq removed added.
  pose proof (removeBook_clears this ISBN now Huniq) as Hclear.
  fold removed in Hclear. subst added.
  rewrite (addBook_fresh removed title author ISBN now' Hclear).
  cbn [LM.value LM.final LM.trace LM.books]. repeat split.
  - rewrite searchByISBN_outcome. cbn [LM.value]. f_equal.
    apply find_absent. exact Hclear.
  - rewrite searchByISBN_outcome. cbn [LM.value LM.books]. rewrite find_push.
    rewrite (proj2 (find_absent (has_isbn ISBN) (LM.books removed)) Hclear).
    unfold has_isbn. cbn [Book.ISBN]. now rewrite String.eqb_refl.
Qed.

End Catalog.

Section LoansAndReturns.
Context {S : Type} {rt : JsRuntime}.
Implicit Types (this : LM.t S) (now : Date).

(** X7.  When the catalog holds the book, a [loanBook] followed by a
    [returnBook] of the same isbn and user leaves as many loans as
    before; when no loan of that isbn to that user was outstanding, the
    object is back to what it was, and the return prints the line of the
    loan just made followed by the thank-you line. *)
Theorem loanBook_then_returnBook this ISBN userID now now' :
  (exists b, In b (LM.books this) /\ has_isbn ISBN b = true) ->
  let lent := LM.loanBook ISBN userID now this in
  let back := LM.returnBook ISBN userID now' (LM.final lent) in
  LM.value back = inl tt /\
  length (LM.loans (LM.final back)) = length (LM.loans this) /\
  LM.books (LM.final back) = LM.books this /\
  ((forall l, In l (LM.loans this) -> loan_of ISBN userID l = false) ->
   LM.final back = this /\
   LM.trace back
   = [return_registered (Loan.mk ISBN userID now) ISBN userID;
      Console Log (JsString.template
        ["Enviando email a "; userID; ": ";
         JsString.template
           ["Has devuelto el libro con ISBN "; ISBN; ". ¡Gracias!"]])]).
Proof.
  intros Hex lent back.
  pose proof Hex as Hsplit.
  apply first_split in Hsplit as (b1 & b & b2 & E & Hb1 & Hb).
  assert (Hnew : loan_of ISBN userID (Loan.mk ISBN userID now) = true).
  { unfold loan_of. cbn [Loan.ISBN Loan.userID]. now rewrite !String.eqb_refl. }
  assert (Hfind : JsArray.find (has_isbn ISBN) (LM.books this) = Some b).
  { rewrite E. now apply find_first. }
  subst back lent.
  rewrite (loanBook_known this ISBN userID now b1 b b2 E Hb1 Hb).
  cbn [LM.final].
  match goal with
  | |- context [LM.returnBook ISBN userID now' ?s] => set (s1 := s)
  end.
  destruct (absent_or_first (loan_of ISBN userID) (LM.loans this))
    as [Habs|(l1 & x & l2 & El & Hl1 & Hx)].
  - rewrite (returnBook_some s1 ISBN userID now' (LM.loans this)
               (Loan.mk ISBN userID now) [] eq_refl Habs Hnew).
    subst s1. cbn [LM.value LM.final LM.trace LM.books LM.loans].
    rewrite app_nil_r, Hfind.
    split; [reflexivity|]. split; [reflexivity|]. split; [reflexivity|].
    intros _. split; [now destruct this | reflexivity].
  - rewrite (returnBook_some s1 ISBN userID now' l1 x
               (l2 ++ [Loan.mk ISBN userID now])).
    + subst s1. cbn [LM.value LM.final LM.trace LM.books LM.loans].
      split; [reflexivity|]. split; [|split; [reflexivity|]].
      * rewrite El. repeat (rewrite length_app || cbn [length]). lia.
      * intros Habs. exfalso. rewrite (Habs x) in Hx; [discriminate|].
        rewrite El. apply in_elt.
    + subst s1. cbn [LM.loans]. rewrite El, <- app_assoc. reflexivity.
    + exact Hl1.
    + exact Hx.
Qed.

(** X8.  [removeBook] leaves every book of another isbn in place and in
    order, and takes out at most one record; [returnBook] leaves every
    loan of another isbn or of another user in place and in order, and
    takes out at most one loan. *)
Theorem removals_leave_the_others this ISBN userID now :
  let removed := LM.final (LM.removeBook ISBN now this) in
  let returned := LM.final (LM.returnBook ISBN userID now this) in
  List.filter (fun b => negb (has_isbn ISBN b)) (LM.books removed)
  = List.filter (fun b => negb (has_isbn ISBN b)) (LM.books this) /\
  (length (LM.books this) <= Datatypes.S (length (LM.books removed)))%nat /\
  List.filter (fun l => negb (loan_of ISBN userID l)) (LM.loans returned)
  = List.filter (fun l => negb (loan_of ISBN userID l)) (LM.loans this) /\
  (length (LM.loans this) <= Datatypes.S (length (LM.loans returned)))%nat.
Proof.
  intros removed returned. subst removed returned.
  assert (Hbooks :
    List.filter (fun b => negb (has_isbn ISBN b))
      (LM.books (LM.final (LM.removeBook ISBN now this)))
    = List.filter (fun b => negb (has_isbn ISBN b)) (LM.books this)
    /\ (length (LM.books this)
        <= Datatypes.S (length (LM.books (LM.final (LM.removeBook ISBN now this)))))%nat).
  { destruct (absent_or_first (has_isbn ISBN) (LM.books this))
      as [Habs|(l1 & b & l2 & E & Hl1 & Hb)].
    - rewrite (removeBook_absent this ISBN now Habs). cbn [LM.final].
      split; [reflexivity|lia].
    - rewrite (removeBook_present this ISBN now l1 b l2 E Hl1 Hb).
      cbn [LM.final LM.books]. rewrite E. split.
      + symmetry. now apply filter_others.
      + rewrite !length_app. simpl. lia. }
  assert (Hloans :
    List.filter (fun l => negb (loan_of ISBN userID l))
      (LM.loans (LM.final (LM.returnBook ISBN userID now this)))
    = List.filter (fun l => negb (loan_of ISBN userID l)) (LM.loans this)
    /\ (length (LM.loans this)
        <= Datatypes.S
             (length (LM.loans (LM.final (LM.returnBook ISBN userID now this)))))%nat).
  { destruct (absent_or_first (loan_of ISBN userID) (LM.loans this))
      as [Habs|(l1 & x & l2 & E & Hl1 & Hx)].
    - rewrite (returnBook_none this ISBN userID now Habs). cbn [LM.final].
      split; [reflexivity|lia].
    - rewrite (returnBook_some this ISBN userID now l1 x l2 E Hl1 Hx).
      cbn [LM.final LM.loans]. rewrite E. split.
      + symmetry. now apply filter_others.
      + rewrite !length_app. simpl. lia. }
  tauto.
Qed.


(** X10.  When [searchByISBN] finds a book, [loanBook] of its isbn returns
    normally and prints two lines: the loan line with the title of that
    book and the user, then the line of the manager's own [sendEmail]
    addressed to the user with a message holding the title.  Nothing is
    sent through the injected service, and the books are left alone. *)
Theorem loanBook_names_the_book_found this ISBN userID now b :
  LM.value (LM.searchByISBN ISBN now this) = inl (Some b) ->
  let o := LM.loanBook ISBN userID now this in
  LM.value o = inl tt /\
  LM.books (LM.final o) = LM.books this /\
  LM.trace o
  = [Console Log (JsString.template
       ["[INFO] Préstamo registrado: "; Book.title b; " a "; userID]);
     Console Log (JsString.template
       ["Enviando email a "; userID; ": ";
        JsString.template ["Has solicitado el libro "; Book.title b]])] /\
  List.filter is_service_call (LM.trace o) = [].
Proof.
  intros F o. rewrite searchByISBN_outcome in F. cbn [LM.value] in F.
  injection F as F.
  apply find_split in F as (l1 & l2 & E & Hl1 & Hb). subst o.
  rewrite (loanBook_known this ISBN userID now l1 b l2 E Hl1 Hb).
  repeat split.
Qed.

End LoansAndReturns.

Section Observers.
Context {S : Type} {rt : JsRuntime}.
Implicit Types (this : LM.t S) (now : Date).

Lemma removeObserver_absent this user now :
  (forall v, In v (LM.observers this) -> User.same v user = false) ->
  LM.removeObserver user now this = LM.mkOutcome (inl tt) this [].
Proof.
  intros Habs. unfold LM.removeObserver. run_method. unfold JsArray.indexOf.
  rewrite (proj2 (findIndex_absent (fun y => User.same y user)
                    (LM.observers this)) Habs).
  reflexivity.
Qed.

Lemma removeObserver_present this user now l1 v l2 :
  LM.observers this = l1 ++ v :: l2 ->
  (forall w, In w l1 -> User.same w user = false) ->
  User.same v user = true ->
  LM.removeObserver user now this
  = LM.mkOutcome (inl tt)
      {| LM.books := LM.books this;
         LM.loans := LM.loans this;
         LM.emailService := LM.emailService this;
         LM.observers := l1 ++ l2 |} [].
Proof.
  intros E Hl1 Hv. unfold LM.removeObserver. run_method. unfold JsArray.indexOf.
  rewrite E.
  rewrite (findIndex_first (fun y => User.same y user) l1 v l2 Hl1 Hv).
  destruct (Z.eqb_spec (Z.of_nat (length l1)) (-1)) as [C|_]; [lia|].
  cbn [negb]. rewrite splice_one. reflexivity.
Qed.

(** X11.  [removeObserver] of a registered listener returns normally,
    prints nothing, takes out the first entry of the registry that is
    this listener, and leaves the later entries, the books and the loans
    as they were. *)
Theorem removeObserver_first_entry this user now l1 v l2 :
  LM.observers this = l1 ++ v :: l2 ->
  (forall w, In w l1 -> User.same w user = false) ->
  User.same v user = true ->
  let o := LM.removeObserver user now this in
  LM.value o = inl tt /\
  LM.trace o = [] /\
  LM.observers (LM.final o) = l1 ++ l2 /\
  LM.books (LM.final o) = LM.books this /\
  LM.loans (LM.final o) = LM.loans this /\
  LM.emailService (LM.final o) = LM.emailService this.
Proof.
  intros E Hl1 Hv o. subst o.
  rewrite (removeObserver_present this user now l1 v l2 E Hl1 Hv).
  repeat split.
Qed.

(** X12.  An [addObserver] followed by a [removeObserver] of the same
    listener leaves a registry of the length it had; when the listener
    was not registered before, the object is back to what it was.  When
    it was registered, it is the earlier entry that goes and the listener
    ends up last. *)
Theorem addObserver_then_removeObserver this user now now' :
  let o := LM.removeObserver user now'
             (LM.final (LM.addObserver user now this)) in
  LM.value o = inl tt /\
  length (LM.observers (LM.final o)) = length (LM.observers this) /\
  ((forall v, In v (LM.observers this) -> User.same v user = false) ->
   LM.final o = this) /\
  (forall l1 v l2,
     LM.observers this = l1 ++ v :: l2 ->
     (forall w, In w l1 -> User.same w user = false) ->
     User.same v user = true ->
     LM.observers (LM.final o) = l1 ++ l2 ++ [user]).
Proof.
  intros o. subst o. rewrite addObserver_outcome. cbn [LM.final].
  match goal with
  | |- context [LM.removeObserver user now' ?s] => set (s1 := s)
  end.
  assert (Hself : User.same user user = true) by apply Nat.eqb_refl.
  destruct (absent_or_first (fun y => User.same y user) (LM.observers this))
    as [Habs|(l1 & v & l2 & E & Hl1 & Hv)].
  - rewrite (removeObserver_present s1 user now' (LM.observers this) user []
               eq_refl Habs Hself).
    subst s1. cbn [LM.value LM.final LM.observers LM.books LM.loans LM.emailService].
    rewrite app_nil_r.
    split; [reflexivity|]. split; [reflexivity|]. split.
    + intros _. now destruct this.
    + intros l1 v l2 E Hl1 Hv. exfalso.
      rewrite (Habs v) in Hv; [discriminate|]. rewrite E. apply in_elt.
  - assert (E1 : LM.observers s1 = l1 ++ v :: (l2 ++ [user])).
    { subst s1. cbn [LM.observers]. rewrite E, <- app_assoc. reflexivity. }
    rewrite (removeObserver_present s1 user now' l1 v (l2 ++ [user]) E1 Hl1 Hv).
    subst s1. cbn [LM.value LM.final LM.observers].
    split; [reflexivity|]. split; [|split].
    + rewrite E. repeat (rewrite length_app || cbn [length]). lia.
    + intros Habs. exfalso.
      rewrite (Habs v) in Hv; [discriminate|]. rewrite E. apply in_elt.
    + intros l1' v' l2' E' Hl1' Hv'.
      assert (Hidx : Z.of_nat (length l1) = Z.of_nat (length l1')).
      { rewrite <- (findIndex_first (fun y => User.same y user) l1 v l2 Hl1 Hv).
        rewrite <- (findIndex_first (fun y => User.same y user) l1' v' l2' Hl1' Hv').
        congruence. }
      assert (Hlen : length l1 = length l1') by lia.
      rewrite E in E'.
      pose proof (f_equal (firstn (length l1)) E') as F1.
      rewrite firstn_app, Nat.sub_diag, firstn_all in F1. simpl in F1.
      rewrite app_nil_r in F1.
      rewrite Hlen, firstn_app, Nat.sub_diag, firstn_all in F1. simpl in F1.
      rewrite app_nil_r in F1. subst l1'.
      apply app_inv_head in E'. injection E' as _ ->. reflexivity.
Qed.

(** X13.  [notifyObservers] returns normally, leaves the object alone and
    calls [update] with the title on every entry of the registry, once
    per entry and in the order of the registry; each call prints the line
    of that listener. *)
Theorem notifyObservers_calls_everyone this bookTitle now :
  let o := LM.notifyObservers bookTitle now this in
  LM.value o = inl tt /\
  LM.final o = this /\
  updates_of (LM.trace o)
  = map (fun observer => (observer, bookTitle)) (LM.observers this) /\
  List.filter (fun e => negb (is_update e)) (LM.trace o)
  = map (fun observer =>
           Console Log (JsString.template
             [User.name observer; " ha sido notificado sobre el nuevo libro: ";
              bookTitle])) (LM.observers this).
Proof.
  intros o. subst o. rewrite notifyObservers_outcome.
  cbn [LM.value LM.final LM.trace].
  split; [reflexivity|]. split; [reflexivity|].
  induction (LM.observers this) as [|u r [IH1 IH2]]; [split; reflexivity|].
  split.
  - simpl. now rewrite IH1.
  - cbn [flat_map map]. unfold User_update at 1. simpl. now rewrite IH2.
Qed.

End Observers.

Lemma has_level_flat_map {A : Type} lvl (f : A -> list Event) (l : list A) :
  (forall x, has_level lvl (f x) = false) ->
  has_level lvl (flat_map f l) = false.
Proof.
  intros H. unfold has_level in *. induction l as [|x r IH]; simpl; [reflexivity|].
  now rewrite existsb_app, H, IH.
Qed.

Lemma existsb_absent {A : Type} (p : A -> bool) (l : list A) :
  (forall x, In x l -> p x = false) -> existsb p l = false.
Proof. exact (proj2 (some_absent p l)). Qed.

Section EveryCall.
Context {S : Type} {rt : JsRuntime}.
Implicit Types (this : LM.t S) (now : Date).

(** Splits on whether the book, or the loan, a call looks for is there,
    and rewrites the call to its outcome. *)
Ltac by_cases this ISBN userID now :=
  first
    [ match goal with
      | |- context [LM.addBook ?t ?a ISBN now this] =>
          destruct (absent_or_first (has_isbn ISBN) (LM.books this))
            as [Habs|(l1 & b & l2 & E & Hl1 & Hb)];
          [ rewrite (addBook_fresh this t a ISBN now Habs)
          | rewrite (addBook_duplicate this t a ISBN now
                       (ex_intro _ b (conj (eq_ind_r (fun l => In b l)
                                              (in_elt b l1 l2) E) Hb))) ]
      end
    | match goal with
      | |- context [LM.removeBook ISBN now this] =>
          destruct (absent_or_first (has_isbn ISBN) (LM.books this))
            as [Habs|(l1 & b & l2 & E & Hl1 & Hb)];
          [ rewrite (removeBook_absent this ISBN now Habs)
          | rewrite (removeBook_present this ISBN now l1 b l2 E Hl1 Hb) ]
      end
    | match goal with
      | |- context [LM.loanBook ISBN userID now this] =>
          destruct (absent_or_first (has_isbn ISBN) (LM.books this))
            as [Habs|(l1 & b & l2 & E & Hl1 & Hb)];
          [ rewrite (loanBook_unknown this ISBN userID now Habs)
          | rewrite (loanBook_known this ISBN userID now l1 b l2 E Hl1 Hb) ]
      end
    | match goal with
      | |- context [LM.returnBook ISBN userID now this] =>
          destruct (absent_or_first (loan_of ISBN userID) (LM.loans this))
            as [Habs|(l1 & x & l2 & E & Hl1 & Hx)];
          [ rewrite (returnBook_none this ISBN userID now Habs)
          | rewrite (returnBook_some this ISBN userID now l1 x l2 E Hl1 Hx) ]
      end ].

Lemma removeObserver_cases this user now :
  LM.removeObserver user now this = LM.mkOutcome (inl tt) this [] \/
  exists l1 l2,
    LM.removeObserver user now this
    = LM.mkOutcome (inl tt)
        {| LM.books := LM.books this;
           LM.loans := LM.loans this;
           LM.emailService := LM.emailService this;
           LM.observers := l1 ++ l2 |} [].
Proof.
  destruct (absent_or_first (fun y => User.same y user) (LM.observers this))
    as [Habs|(l1 & v & l2 & E & Hl1 & Hv)].
  - left. now apply removeObserver_absent.
  - right. exists l1, l2. now apply (removeObserver_present this user now l1 v l2).
Qed.

Lemma discard_value {A : Type} (m : LM.M S A) this now a :
  LM.value (m now this) = inl a -> LM.value (discard m now this) = inl tt.
Proof.
  intros H. unfold discard, LM.bind, LM.ret. now rewrite H.
Qed.

Lemma perform_emailService op now this :
  LM.emailService (LM.final (perform op now this)) = LM.emailService this.
Proof.
  destruct op; cbn [perform];
    rewrite ?discard_final, ?search_final, ?notifyObservers_outcome,
      ?printAllBooks_outcome, ?printAllLoans_outcome;
    try reflexivity.
  - destruct (removeObserver_cases this user now) as [->|(l1 & l2 & ->)];
      reflexivity.
  - by_cases this ISBN EmptyString now; reflexivity.
  - by_cases this ISBN EmptyString now; reflexivity.
  - by_cases this ISBN userID now; reflexivity.
  - by_cases this ISBN userID now; reflexivity.
Qed.

Lemma perform_updates op now this :
  (forall bookTitle, op <> NotifyObservers bookTitle) ->
  updates_of (LM.trace (perform op now this)) = [].
Proof.
  intros Hop.
  destruct op; cbn [perform];
    rewrite ?discard_trace, ?printAllBooks_outcome, ?printAllLoans_outcome;
    cbn [LM.trace]; try reflexivity.
  - destruct (removeObserver_cases this user now) as [->|(l1 & l2 & ->)];
      reflexivity.
  - now elim (Hop bookTitle).
  - by_cases this ISBN EmptyString now; reflexivity.
  - by_cases this ISBN EmptyString now; reflexivity.
  - unfold LM.search. run_method. destruct (0 <? _)%nat; reflexivity.
  - by_cases this ISBN userID now; reflexivity.
  - by_cases this ISBN userID now; cbn [LM.trace]; [reflexivity|].
    destruct (JsArray.find _ _); reflexivity.
  - induction (LM.books this) as [|b r IH]; [reflexivity|exact IH].
  - induction (LM.loans this) as [|l r IH]; [reflexivity|exact IH].
Qed.

(** X14.  No call of a public method throws: each returns normally, in
    every state and for every argument. *)
Theorem perform_returns_normally op now this :
  LM.value (perform op now this) = inl tt.
Proof.
  destruct op; cbn [perform].
  - reflexivity.
  - destruct (removeObserver_cases this user now) as [->|(l1 & l2 & ->)];
      reflexivity.
  - now rewrite notifyObservers_outcome.
  - by_cases this ISBN EmptyString now; reflexivity.
  - by_cases this ISBN EmptyString now; reflexivity.
  - reflexivity.
  - reflexivity.
  - reflexivity.
  - apply (discard_value _ _ _ (List.filter (matches_query query) (LM.books this))).
    apply search_value.
  - by_cases this ISBN userID now; reflexivity.
  - by_cases this ISBN userID now; reflexivity.
  - now rewrite printAllBooks_outcome.
  - now rewrite printAllLoans_outcome.
Qed.

(** X15.  A call never changes the injected service; it leaves the books
    alone unless it is [addBook] or [removeBook], the loans alone unless
    it is [loanBook] or [returnBook], and the registry alone unless it is
    [addObserver] or [removeObserver]. *)
Theorem perform_footprint op now this :
  let after := LM.final (perform op now this) in
  LM.emailService after = LM.emailService this /\
  (touches_books op = false -> LM.books after = LM.books this) /\
  (touches_loans op = false -> LM.loans after = LM.loans this) /\
  (touches_observers op = false -> LM.observers after = LM.observers this).
Proof.
  intros after. subst after.
  destruct op; cbn [perform touches_books touches_loans touches_observers];
    rewrite ?discard_final, ?search_final, ?notifyObservers_outcome,
      ?printAllBooks_outcome, ?printAllLoans_outcome;
    try (repeat split; (reflexivity || discriminate)).
  - destruct (removeObserver_cases this user now) as [->|(l1 & l2 & ->)];
      repeat split; discriminate.
  - by_cases this ISBN EmptyString now; repeat split; discriminate.
  - by_cases this ISBN EmptyString now; repeat split; discriminate.
  - by_cases this ISBN userID now; repeat split; discriminate.
  - by_cases this ISBN userID now; repeat split; discriminate.
Qed.

(** X16.  A call prints at the error level exactly when it is an [addBook]
    of an isbn the catalog holds, or a [returnBook] that finds the loan
    but not the book.  It prints a warning exactly when it is a
    [removeBook] or a [loanBook] of an isbn the catalog does not hold, or
    a [returnBook] that finds no loan. *)
Theorem perform_levels op now this :
  has_level Error (LM.trace (perform op now this)) = error_case op this /\
  has_level Warn (LM.trace (perform op now this)) = warning_case op this.
Proof.
  destruct op; cbn [perform error_case warning_case];
    rewrite ?discard_trace, ?notifyObservers_outcome,
      ?printAllBooks_outcome, ?printAllLoans_outcome;
    cbn [LM.trace];
    try (split; reflexivity);
    try (split; apply has_level_flat_map; reflexivity).
  - destruct (removeObserver_cases this user now) as [->|(l1 & l2 & ->)];
      split; reflexivity.
  - by_cases this ISBN EmptyString now; cbn [LM.trace has_level existsb Level_eqb].
    + now rewrite (existsb_absent _ _ Habs).
    + rewrite E. now rewrite (existsb_first _ l1 l2 b Hb).
  - by_cases this ISBN EmptyString now; cbn [LM.trace has_level existsb Level_eqb].
    + now rewrite (existsb_absent _ _ Habs).
    + rewrite E. now rewrite (existsb_first _ l1 l2 b Hb).
  - unfold LM.search. run_method. destruct (0 <? _)%nat; split; reflexivity.
  - by_cases this ISBN userID now; cbn [LM.trace has_level existsb Level_eqb].
    + now rewrite (existsb_absent _ _ Habs).
    + rewrite E. now rewrite (existsb_first _ l1 l2 b Hb).
  - by_cases this ISBN userID now; cbn [LM.trace].
    + rewrite (existsb_absent _ _ Habs). split; reflexivity.
    + rewrite E. rewrite (existsb_first _ l1 l2 x Hx).
      destruct (JsArray.find (has_isbn ISBN) (LM.books this)) as [b|] eqn:F.
      * apply find_split in F as (b1 & b2 & Eb & Hb1 & Hb).
        rewrite Eb, (existsb_first _ b1 b2 b Hb). split; reflexivity.
      * rewrite (existsb_absent _ _ (proj1 (find_absent _ _) F)).
        split; reflexivity.
Qed.

(** X17.  [printAllBooks] prints one line for each book and
    [printAllLoans] one line for each loan, in the order of the
    collection and nothing else: nothing at all for an empty collection.
    Both return normally. *)
Theorem printAll_one_line_each this now :
  LM.value (LM.printAllBooks now this) = inl tt /\
  LM.trace (LM.printAllBooks now this) = map book_line (LM.books this) /\
  LM.value (LM.printAllLoans now this) = inl tt /\
  LM.trace (LM.printAllLoans now this) = map loan_line (LM.loans this).
Proof.
  rewrite printAllBooks_outcome, printAllLoans_outcome.
  cbn [LM.value LM.trace].
  split; [reflexivity|]. split; [|split; [reflexivity|]].
  - induction (LM.books this) as [|b r IH]; simpl; [reflexivity|].
    now rewrite IH.
  - induction (LM.loans this) as [|l r IH]; simpl; [reflexivity|].
    now rewrite IH.
Qed.

(** Where the books and the loans of the object after a call come
    from. *)
Lemma perform_books_from op now this book :
  In book (LM.books (LM.final (perform op now this))) ->
  In book (LM.books this) \/
  op = AddBook (Book.title book) (Book.author book) (Book.ISBN book).
Proof.
  destruct op; cbn [perform];
    rewrite ?discard_final, ?search_final, ?notifyObservers_outcome,
      ?printAllBooks_outcome, ?printAllLoans_outcome;
    try (intros H; left; exact H).
  - destruct (removeObserver_cases this user now) as [->|(l1 & l2 & ->)];
      intros H; left; exact H.
  - by_cases this ISBN EmptyString now; cbn [LM.final LM.books]; intros H.
    + apply in_app_or in H as [H|[<-|[]]]; [left; exact H|right; reflexivity].
    + left. exact H.
  - by_cases this ISBN EmptyString now; cbn [LM.final LM.books]; intros H.
    + left. exact H.
    + left. rewrite E. apply in_app_or in H as [H|H]; apply in_or_app;
        [left; exact H | right; right; exact H].
  - by_cases this ISBN userID now; intros H; left; exact H.
  - by_cases this ISBN userID now; intros H; left; exact H.
Qed.

Lemma perform_loans_from op now this loan :
  In loan (LM.loans (LM.final (perform op now this))) ->
  In loan (LM.loans this) \/
  (op = LoanBook (Loan.ISBN loan) (Loan.userID loan) /\ Loan.date loan = now /\
   exists b, In b (LM.books this) /\ has_isbn (Loan.ISBN loan) b = true).
Proof.
  destruct op; cbn [perform];
    rewrite ?discard_final, ?search_final, ?notifyObservers_outcome,
      ?printAllBooks_outcome, ?printAllLoans_outcome;
    try (intros H; left; exact H).
  - destruct (removeObserver_cases this user now) as [->|(l1 & l2 & ->)];
      intros H; left; exact H.
  - by_cases this ISBN EmptyString now; intros H; left; exact H.
  - by_cases this ISBN EmptyString now; intros H; left; exact H.
  - by_cases this ISBN userID now; cbn [LM.final LM.loans]; intros H.
    + left. exact H.
    + apply in_app_or in H as [H|[<-|[]]]; [left; exact H|]. right.
      cbn [Loan.ISBN Loan.userID Loan.date]. repeat split.
      exists b. split; [rewrite E; apply in_elt | exact Hb].
  - by_cases this ISBN userID now; cbn [LM.final LM.loans]; intros H.
    + left. exact H.
    + left. rewrite E. apply in_app_or in H as [H|H]; apply in_or_app;
        [left; exact H | right; right; exact H].
Qed.

End EveryCall.

Section WholeRuns.
Context {S : Type} {rt : JsRuntime}.
Implicit Types (this : LM.t S) (now : Date).

Lemma updates_of_app (tr1 tr2 : list Event) :
  updates_of (tr1 ++ tr2) = updates_of tr1 ++ updates_of tr2.
Proof. unfold updates_of. apply flat_map_app. Qed.

(** The service held by the object survives every sequence of calls. *)
Lemma run_emailService calls this :
  LM.emailService (run calls this) = LM.emailService this.
Proof.
  revert this. induction calls as [|[now op] rest IH]; intros this; simpl.
  - reflexivity.
  - now rewrite IH, perform_emailService.
Qed.

(** X18.  Over any sequence of calls of the public methods, from any
    state, [sendEmail] is never called on the injected service and the
    service held by the object stays the one it was constructed with;
    [update] is called on a listener only by a call of [notifyObservers]:
    a sequence without one calls [update] on nobody, whoever is
    registered. *)
Theorem run_calls_no_collaborator calls this :
  List.filter is_service_call (run_trace calls this) = [] /\
  LM.emailService (run calls this) = LM.emailService this /\
  ((forall now op bookTitle, In (now, op) calls -> op <> NotifyObservers bookTitle) ->
   updates_of (run_trace calls this) = []).
Proof.
  split; [|split].
  - revert this. induction calls as [|[now op] rest IH]; intros this; simpl.
    + reflexivity.
    + now rewrite filter_app, perform_no_service_call, IH.
  - apply run_emailService.
  - revert this. induction calls as [|[now op] rest IH]; intros this H; simpl.
    + reflexivity.
    + rewrite updates_of_app, perform_updates, IH.
      * reflexivity.
      * intros now' op' t Hin. apply (H now' op' t). now right.
      * intros t. apply (H now op t). now left.
Qed.

Lemma steps_on_instance (l : list Step) this :
  steps l (Some this) = Some (run (calls_of l) this).
Proof.
  revert this. unfold steps.
  induction l as [|[svc|now op] r IH]; intros this; simpl.
  - reflexivity.
  - apply IH.
  - apply IH.
Qed.

(** X19.  The first [getInstance] constructs the manager with the service
    it is given.  Every later [getInstance] hands back that same object,
    with the books, loans and observers the calls made so far have left
    in it, and with the first service: its argument is ignored. *)
Theorem getInstance_constructs_once (first : S) (l : list Step) :
  steps (GetInstance first :: l) None
  = Some (run (calls_of l) (LM.new first)) /\
  (forall later,
     getInstance later (steps (GetInstance first :: l) None)
     = steps (GetInstance first :: l) None) /\
  (exists this,
     steps (GetInstance first :: l) None = Some this /\
     LM.emailService this = first).
Proof.
  assert (E : steps (GetInstance first :: l) None
              = Some (run (calls_of l) (LM.new first))).
  { unfold steps. simpl. apply steps_on_instance. }
  split; [exact E|]. split.
  - intros later. rewrite E. reflexivity.
  - eexists. split; [exact E|]. apply run_emailService.
Qed.

End WholeRuns.

(** *** The builder *)

Lemma chain_fields (cs : list BookBuilder.Setter) (b : BookBuilder.t) :
  BookBuilder.title (BookBuilder.chain cs b)
  = match BookBuilder.last_title cs with
    | Some x => x
    | None => BookBuilder.title b
    end /\
  BookBuilder.author (BookBuilder.chain cs b)
  = match BookBuilder.last_author cs with
    | Some x => x
    | None => BookBuilder.author b
    end /\
  BookBuilder.ISBN (BookBuilder.chain cs b)
  = match BookBuilder.last_ISBN cs with
    | Some x => x
    | None => BookBuilder.ISBN b
    end.
Proof.
  revert b. unfold BookBuilder.chain.
  induction cs as [|c r IH]; intros b; [repeat split|].
  cbn [fold_left BookBuilder.last_title BookBuilder.last_author
       BookBuilder.last_ISBN].
  destruct (IH (BookBuilder.apply c b)) as (Ht & Ha & Hi).
  rewrite Ht, Ha, Hi.
  destruct (BookBuilder.last_title r), (BookBuilder.last_author r),
    (BookBuilder.last_ISBN r), c; repeat split.
Qed.

(** X20.  Whatever chain of [withTitle], [withAuthor] and [withISBN]
    calls is made on a new builder, in whatever order and with whatever
    repetitions, [build] gives the book whose every field is the argument
    of the last call of its setter, and the empty string when its setter
    was never called. *)
Theorem build_takes_the_last_setters (cs : list BookBuilder.Setter) :
  BookBuilder.build (BookBuilder.chain cs BookBuilder.new)
  = Book.mk
      (match BookBuilder.last_title cs with Some x => x | None => EmptyString end)
      (match BookBuilder.last_author cs with Some x => x | None => EmptyString end)
      (match BookBuilder.last_ISBN cs with Some x => x | None => EmptyString end).
Proof.
  destruct (chain_fields cs BookBuilder.new) as (Ht & Ha & Hi).
  unfold BookBuilder.build. now rewrite Ht, Ha, Hi.
Qed.

(** *** Where records come from *)

Section Provenance.
Context {S : Type} {rt : JsRuntime}.
Implicit Types (this : LM.t S) (now : Date).

Lemma run_books_from calls this b :
  In b (LM.books (run calls this)) ->
  In b (LM.books this) \/
  exists now, In (now, AddBook (Book.title b) (Book.author b) (Book.ISBN b)) calls.
Proof.
  revert this. induction calls as [|[now op] rest IH]; intros this H; simpl in H.
  - left. exact H.
  - destruct (IH _ H) as [Hin|[now' Hin]].
    + destruct (perform_books_from op now this b Hin) as [Hthis| ->].
      * left. exact Hthis.
      * right. exists now. left. reflexivity.
    + right. exists now'. right. exact Hin.
Qed.

Lemma run_loans_from calls this l :
  In l (LM.loans (run calls this)) ->
  In l (LM.loans this) \/
  (In (Loan.date l, LoanBook (Loan.ISBN l) (Loan.userID l)) calls /\
   ((exists b, In b (LM.books this) /\ has_isbn (Loan.ISBN l) b = true) \/
    exists now title author, In (now, AddBook title author (Loan.ISBN l)) calls)).
Proof.
  revert this. induction calls as [|[now op] rest IH]; intros this H; simpl in H.
  - left. exact H.
  - destruct (IH _ H) as [Hin|[Hloan [(b & Hb & Hisbn)|(n & t & a & Hadd)]]].
    + destruct (perform_loans_from op now this l Hin)
        as [Hthis|(-> & <- & Hbook)].
      * left. exact Hthis.
      * right. split; [left; reflexivity|]. left. exact Hbook.
    + right. split; [right; exact Hloan|].
      destruct (perform_books_from op now this b Hb) as [Hthis| ->].
      * left. exists b. split; assumption.
      * right. exists now, (Book.title b), (Book.author b). left.
        apply String.eqb_eq in Hisbn. now rewrite Hisbn.
    + right. split; [right; exact Hloan|]. right.
      exists n, t, a. right. exact Hadd.
Qed.

(** X21.  Every book of the catalog, after any sequence of calls on a new
    manager, is the record of an [addBook] call of the sequence, with the
    title, the author and the isbn that call was given: no call alters a
    record once it is stored. *)
Theorem books_come_from_addBook (svc : S) calls b :
  In b (LM.books (run calls (LM.new svc))) ->
  exists now, In (now, AddBook (Book.title b) (Book.author b) (Book.ISBN b)) calls.
Proof.
  intros H. destruct (run_books_from calls (LM.new svc) b H) as [[]|Hadd].
  exact Hadd.
Qed.

(** X22.  Every loan outstanding after any sequence of calls on a new
    manager was made by a [loanBook] call of the sequence, for that isbn
    and that user, at the instant the loan records as its date; and the
    sequence holds an [addBook] call of that isbn. *)
Theorem loans_come_from_loanBook (svc : S) calls l :
  In l (LM.loans (run calls (LM.new svc))) ->
  In (Loan.date l, LoanBook (Loan.ISBN l) (Loan.userID l)) calls /\
  exists now title author, In (now, AddBook title author (Loan.ISBN l)) calls.
Proof.
  intros H.
  destruct (run_loans_from calls (LM.new svc) l H)
    as [[]|[Hloan [(b & [] & _)|Hadd]]].
  split; assumption.
Qed.

End Provenance.

(** ** The further properties at work on the sample states *)

Lemma sample_shelf_unique : unique_isbn (LM.books Sample.shelf).
Proof.
  intros i. unfold count_isbn. simpl.
  destruct (has_isbn i Sample.gatsby); simpl; lia.
Defined.

Lemma book_found_by_its_fields_witness :
  In Sample.gatsby (LM.books Sample.shelf) /\
  exists r,
    LM.value (@LM.search ConsoleEmailService "El Gran Gatsby" 1%Z Sample.shelf)
    = inl r /\ In Sample.gatsby r.
Proof.
  assert (H : In Sample.gatsby (LM.books Sample.shelf)) by (left; reflexivity).
  split; [exact H|].
  exact (proj1 (@book_found_by_its_fields ConsoleEmailService
                  Sample.shelf Sample.gatsby 1%Z H)).
Defined.


Lemma addBook_then_searchByISBN_witness :
  (forall b, In b (LM.books Sample.shelf) -> has_isbn "42" b = false) /\
  let o := @LM.addBook ConsoleEmailService "1984" "George Orwell" "42" 2%Z
             Sample.shelf in
  LM.books (LM.final o) = [Sample.gatsby; Scenario.orwell] /\
  LM.value (LM.searchByISBN "42" 3%Z (LM.final o)) = inl (Some Scenario.orwell).
Proof.
  assert (H : forall b, In b (LM.books Sample.shelf) -> has_isbn "42" b = false).
  { intros b [<-|[]]. reflexivity. }
  split; [exact H|].
  destruct (@addBook_then_searchByISBN ConsoleEmailService Sample.shelf
              "1984" "George Orwell" "42" 2%Z 3%Z H)
    as (_ & Hf & _ & _ & Hfound & _).
  split; [rewrite Hf; reflexivity | exact Hfound].
Defined.

Lemma removeBook_frees_the_isbn_witness :
  unique_isbn (LM.books Sample.shelf) /\
  let removed :=
    LM.final (@LM.removeBook ConsoleEmailService "123456789" 1%Z Sample.shelf) in
  LM.value (LM.searchByISBN "123456789" 2%Z removed) = inl None /\
  LM.value
    (LM.searchByISBN "123456789" 3%Z
       (LM.final (LM.addBook "1984" "George Orwell" "123456789" 2%Z removed)))
  = inl (Some (Book.mk "1984" "George Orwell" "123456789")).
Proof.
  split; [exact sample_shelf_unique|].
  destruct (@removeBook_frees_the_isbn ConsoleEmailService Sample.shelf
              "123456789" 1%Z 2%Z 3%Z "1984" "George Orwell" sample_shelf_unique)
    as (Hnone & _ & _ & Hfound).
  split; [exact Hnone | exact Hfound].
Defined.

Lemma loanBook_then_returnBook_witness :
  (exists b, In b (LM.books Sample.shelf) /\ has_isbn "123456789" b = true) /\
  (forall l, In l (LM.loans Sample.shelf) -> loan_of "123456789" "user01" l = false) /\
  LM.final
    (@LM.returnBook ConsoleEmailService Sample.runtime "123456789" "user01" 5%Z
       (LM.final (LM.loanBook "123456789" "user01" 4%Z Sample.shelf)))
  = Sample.shelf.
Proof.
  assert (Hex : exists b, In b (LM.books Sample.shelf)
                          /\ has_isbn "123456789" b = true).
  { exists Sample.gatsby. split; [left; reflexivity | reflexivity]. }
  assert (Hno : forall l, In l (LM.loans Sample.shelf)
                          -> loan_of "123456789" "user01" l = false).
  { intros l []. }
  split; [exact Hex|]. split; [exact Hno|].
  destruct (@loanBook_then_returnBook ConsoleEmailService Sample.runtime
              Sample.shelf "123456789" "user01" 4%Z 5%Z Hex)
    as (_ & _ & _ & Hback).
  exact (proj1 (Hback Hno)).
Defined.


Lemma loanBook_names_the_book_found_witness :
  LM.value (@LM.searchByISBN ConsoleEmailService "123456789" 4%Z Sample.shelf)
  = inl (Some Sample.gatsby) /\
  LM.trace (@LM.loanBook ConsoleEmailService "123456789" "user01" 4%Z Sample.shelf)
  = [Console Log "[INFO] Préstamo registrado: El Gran Gatsby a user01";
     Console Log "Enviando email a user01: Has solicitado el libro El Gran Gatsby"].
Proof.
  assert (H : LM.value (@LM.searchByISBN ConsoleEmailService "123456789" 4%Z
                          Sample.shelf) = inl (Some Sample.gatsby))
    by reflexivity.
  split; [exact H|].
  destruct (@loanBook_names_the_book_found ConsoleEmailService Sample.shelf
              "123456789" "user01" 4%Z Sample.gatsby H) as (_ & _ & Ht & _).
  exact Ht.
Defined.

Lemma removeObserver_first_entry_witness :
  LM.observers Scenario.crowd = [] ++ Sample.ana :: [Scenario.bea; Sample.ana] /\
  User.same Sample.ana Sample.ana = true /\
  LM.observers (LM.final (LM.removeObserver Sample.ana 1%Z Scenario.crowd))
  = [Scenario.bea; Sample.ana].
Proof.
  split; [reflexivity|]. split; [reflexivity|].
  destruct (@removeObserver_first_entry ConsoleEmailService Scenario.crowd
              Sample.ana 1%Z [] Sample.ana [Scenario.bea; Sample.ana] eq_refl
              (fun w (H : In w []) => match H with end) eq_refl)
    as (_ & _ & Hobs & _).
  exact Hobs.
Defined.

Lemma addObserver_then_removeObserver_witness :
  (forall v, In v (LM.observers Sample.shelf) -> User.same v Sample.ana = false) /\
  LM.final (LM.removeObserver Sample.ana 2%Z
              (LM.final (LM.addObserver Sample.ana 1%Z Sample.shelf)))
  = Sample.shelf /\
  LM.observers
    (LM.final (LM.removeObserver Sample.ana 2%Z
                 (LM.final (LM.addObserver Sample.ana 1%Z Scenario.crowd))))
  = [Scenario.bea; Sample.ana; Sample.ana].
Proof.
  assert (H : forall v, In v (LM.observers Sample.shelf)
                        -> User.same v Sample.ana = false).
  { intros v []. }
  split; [exact H|].
  destruct (@addObserver_then_removeObserver ConsoleEmailService Sample.shelf
              Sample.ana 1%Z 2%Z) as (_ & _ & Hback & _).
  destruct (@addObserver_then_removeObserver ConsoleEmailService Scenario.crowd
              Sample.ana 1%Z 2%Z) as (_ & _ & _ & Hfirst).
  split; [exact (Hback H)|].
  exact (Hfirst [] Sample.ana [Scenario.bea; Sample.ana] eq_refl
           (fun w (Hw : In w []) => match Hw with end) eq_refl).
Defined.

Lemma perform_footprint_witness :
  touches_books (LoanBook "123456789" "user01") = false /\
  touches_observers (LoanBook "123456789" "user01") = false /\
  LM.books (LM.final (@perform ConsoleEmailService Sample.runtime
                        (LoanBook "123456789" "user01") 4%Z Scenario.crowd))
  = LM.books Scenario.crowd /\
  LM.observers (LM.final (@perform ConsoleEmailService Sample.runtime
                            (LoanBook "123456789" "user01") 4%Z Scenario.crowd))
  = LM.observers Scenario.crowd.
Proof.
  split; [reflexivity|]. split; [reflexivity|].
  destruct (@perform_footprint ConsoleEmailService Sample.runtime
              (LoanBook "123456789" "user01") 4%Z Scenario.crowd)
    as (_ & Hbooks & _ & Hobs).
  split; [exact (Hbooks eq_refl) | exact (Hobs eq_refl)].
Defined.

Lemma run_calls_no_collaborator_witness :
  (forall now op bookTitle,
     In (now, op) Sample.demo -> op <> NotifyObservers bookTitle) /\
  updates_of (@run_trace ConsoleEmailService Sample.runtime Sample.demo
                Scenario.crowd) = [].
Proof.
  assert (H : forall now op bookTitle,
            In (now, op) Sample.demo -> op <> NotifyObservers bookTitle).
  { intros now op t Hin. unfold Sample.demo in Hin. simpl in Hin.
    repeat (destruct Hin as [Hin|Hin]; [injection Hin as _ <-; discriminate|]).
    destruct Hin. }
  split; [exact H|].
  destruct (@run_calls_no_collaborator ConsoleEmailService Sample.runtime
              Sample.demo Scenario.crowd) as (_ & _ & Hupd).
  exact (Hupd H).
Defined.

Lemma books_come_from_addBook_witness :
  In Sample.gatsby
    (LM.books (@run ConsoleEmailService Sample.runtime Sample.demo
                 (LM.new new_ConsoleEmailService))) /\
  exists now,
    In (now, AddBook "El Gran Gatsby" "F. Scott Fitzgerald" "123456789")
      Sample.demo.
Proof.
  assert (H : In Sample.gatsby
                (LM.books (@run ConsoleEmailService Sample.runtime Sample.demo
                             (LM.new new_ConsoleEmailService))))
    by (left; reflexivity).
  split; [exact H|].
  exact (@books_come_from_addBook ConsoleEmailService Sample.runtime
           new_ConsoleEmailService Sample.demo Sample.gatsby H).
Defined.

Lemma loans_come_from_loanBook_witness :
  In Sample.loan1
    (LM.loans (@run ConsoleEmailService Sample.runtime (firstn 4 Sample.demo)
                 (LM.new new_ConsoleEmailService))) /\
  In (4%Z, LoanBook "123456789" "user01") (firstn 4 Sample.demo).
Proof.
  assert (H : In Sample.loan1
                (LM.loans (@run ConsoleEmailService Sample.runtime
                             (firstn 4 Sample.demo)
                             (LM.new new_ConsoleEmailService))))
    by (left; reflexivity).
  split; [exact H|].
  exact (proj1 (@loans_come_from_loanBook ConsoleEmailService Sample.runtime
                  new_ConsoleEmailService (firstn 4 Sample.demo) Sample.loan1 H)).
Defined.
